(** * gorouter [test_util/helpers.go]: test fixtures for configurations and
      self-signed certificates

    The file embeds [SpecConfig], [SpecSSLConfig], [generateConfig],
    [CreateKeyPair], [CreateECKeyPair], [CreateCert] and [CreateECCert].

    The helpers are glue around the Go standard library.  Library types whose
    fields the helpers read or write are records; library operations whose
    result depends on key material, DER, base64 or the operating system are
    the fields of the class [Library]; what the helpers themselves compute
    (the serial-number limit, the subject, the template, the order of the
    calls, the error checks, the PEM labels, the concatenations) is
    written out.  Effects (entropy, the clock, a failed gomega expectation)
    are threaded through a state-and-abort monad over the library's
    [World]. *)

From Stdlib Require Import ZArith List String Ascii Bool Lia.
From Stdlib.Strings Require Import Byte.
Import ListNotations.
Open Scope Z_scope.
Open Scope string_scope.
Open Scope list_scope.

(** ** Go values *)

(** [[]byte] *)
Definition bytes := list byte.

(** [error]: a non-nil error carries its message. *)
Definition error := string.

(** A Go result pair [(v, err)]; [err = None] is [err == nil]. *)
Definition with_err (A : Type) : Type := (A * option error)%type.

(** [string(b)] and [[]byte(s)] *)
Definition string_of_bytes (b : bytes) : string := string_of_list_byte b.
Definition bytes_of_string (s : string) : bytes := list_byte_of_string s.

(** The one-character string ["\n"]. *)
Definition newline : string := String (ascii_of_nat 10) EmptyString.

Module big.
(** [*big.Int] *)
Definition Int := Z.
Definition NewInt (x : Z) : Int := x.
(** [z.Lsh(x, n)] sets [z = x << n]. *)
Definition Lsh (x : Int) (n : Z) : Int := Z.shiftl x n.
End big.

Module time.
(** [time.Time] as nanoseconds since the epoch, [time.Duration] as
    nanoseconds. *)
Definition Time := Z.
Definition Duration := Z.
Definition Nanosecond : Duration := 1.
Definition Microsecond : Duration := 1000 * Nanosecond.
Definition Millisecond : Duration := 1000 * Microsecond.
Definition Second : Duration := 1000 * Millisecond.
Definition Minute : Duration := 60 * Second.
Definition Hour : Duration := 60 * Minute.
Definition Add (t : Time) (d : Duration) : Time := t + d.
Definition Sub (t u : Time) : Duration := t - u.
End time.

Module asn1.
Definition ObjectIdentifier := list Z.
End asn1.

Module strings.
(** [strings.HasSuffix(s, suffix)] *)
Definition HasSuffix (s suffix : string) : bool :=
  let n := String.length s in
  let m := String.length suffix in
  (m <=? n)%nat && String.eqb (substring (n - m) m s) suffix.
End strings.

Module pkix.
Record AttributeTypeAndValue := {
  Type_ : asn1.ObjectIdentifier;
  Value : string
}.

(** [pkix.Name] *)
Record Name := {
  Country : list string;
  Organization : list string;
  OrganizationalUnit : list string;
  Locality : list string;
  Province : list string;
  StreetAddress : list string;
  PostalCode : list string;
  SerialNumber : string;
  CommonName : string;
  ExtraNames : list AttributeTypeAndValue
}.

(** The zero value [pkix.Name{}]. *)
Definition zero : Name :=
  {| Country := []; Organization := []; OrganizationalUnit := [];
     Locality := []; Province := []; StreetAddress := []; PostalCode := [];
     SerialNumber := EmptyString; CommonName := EmptyString; ExtraNames := [] |}.

(** [n.CommonName = v] *)
Definition set_CommonName (v : string) (n : Name) : Name :=
  {| Country := Country n; Organization := Organization n;
     OrganizationalUnit := OrganizationalUnit n; Locality := Locality n;
     Province := Province n; StreetAddress := StreetAddress n;
     PostalCode := PostalCode n; SerialNumber := SerialNumber n;
     CommonName := v; ExtraNames := ExtraNames n |}.

Definition RelativeDistinguishedNameSET := list AttributeTypeAndValue.
Definition RDNSequence := list RelativeDistinguishedNameSET.

Definition oidCountry : asn1.ObjectIdentifier := [2; 5; 4; 6].
Definition oidOrganization : asn1.ObjectIdentifier := [2; 5; 4; 10].
Definition oidOrganizationalUnit : asn1.ObjectIdentifier := [2; 5; 4; 11].
Definition oidCommonName : asn1.ObjectIdentifier := [2; 5; 4; 3].
Definition oidSerialNumber : asn1.ObjectIdentifier := [2; 5; 4; 5].
Definition oidLocality : asn1.ObjectIdentifier := [2; 5; 4; 7].
Definition oidProvince : asn1.ObjectIdentifier := [2; 5; 4; 8].
Definition oidStreetAddress : asn1.ObjectIdentifier := [2; 5; 4; 9].
Definition oidPostalCode : asn1.ObjectIdentifier := [2; 5; 4; 17].

Definition oid_eqb (a b : asn1.ObjectIdentifier) : bool :=
  if list_eq_dec Z.eq_dec a b then true else false.

Definition oidInAttributeTypeAndValue
    (oid : asn1.ObjectIdentifier) (atv : list AttributeTypeAndValue) : bool :=
  existsb (fun a => oid_eqb (Type_ a) oid) atv.

Definition appendRDNs (n : Name) (inp : RDNSequence) (values : list string)
    (oid : asn1.ObjectIdentifier) : RDNSequence :=
  match values with
  | [] => inp
  | _ :: _ =>
      if oidInAttributeTypeAndValue oid (ExtraNames n) then inp
      else inp ++ [map (fun v => {| Type_ := oid; Value := v |}) values]
  end.

(** [n.ToRDNSequence()]: the attributes the encoder of a certificate
    writes for a name, in order.  An empty [CommonName] or [SerialNumber]
    adds no attribute. *)
Definition ToRDNSequence (n : Name) : RDNSequence :=
  let ret := appendRDNs n [] (Country n) oidCountry in
  let ret := appendRDNs n ret (Province n) oidProvince in
  let ret := appendRDNs n ret (Locality n) oidLocality in
  let ret := appendRDNs n ret (StreetAddress n) oidStreetAddress in
  let ret := appendRDNs n ret (PostalCode n) oidPostalCode in
  let ret := appendRDNs n ret (Organization n) oidOrganization in
  let ret := appendRDNs n ret (OrganizationalUnit n) oidOrganizationalUnit in
  let ret :=
    if (0 <? String.length (CommonName n))%nat
    then appendRDNs n ret [CommonName n] oidCommonName else ret in
  let ret :=
    if (0 <? String.length (SerialNumber n))%nat
    then appendRDNs n ret [SerialNumber n] oidSerialNumber else ret in
  ret ++ map (fun atv => [atv]) (ExtraNames n).

(** Whether an encoded name has an attribute of the given type. *)
Definition has_attribute (oid : asn1.ObjectIdentifier) (s : RDNSequence) : bool :=
  existsb (oidInAttributeTypeAndValue oid) s.
End pkix.

Module elliptic.
Inductive Curve := P224 | P256 | P384 | P521.
End elliptic.

Module rsa.
Record PublicKey := { N : big.Int; E : Z }.
(** [rsa.PrivateKey] embeds its [PublicKey]; [Public] is that field. *)
Record PrivateKey := { Public : PublicKey; D : big.Int }.
End rsa.

Module ecdsa.
Record PublicKey := { Curve : elliptic.Curve; X : big.Int; Y : big.Int }.
(** [ecdsa.PrivateKey] embeds its [PublicKey]; [Public] is that field. *)
Record PrivateKey := { Public : PublicKey; D : big.Int }.
End ecdsa.

Module crypto.
(** The dynamic types an [interface{}] key can hold. *)
Inductive PublicKey :=
| RSAPublicKey (k : rsa.PublicKey)
| ECDSAPublicKey (k : ecdsa.PublicKey)
| OtherPublicKey (raw : bytes).

Inductive PrivateKey :=
| RSAPrivateKey (k : rsa.PrivateKey)
| ECDSAPrivateKey (k : ecdsa.PrivateKey)
| OtherPrivateKey (raw : bytes).
End crypto.

Module x509.
Inductive SignatureAlgorithm :=
| UnknownSignatureAlgorithm
| MD2WithRSA | MD5WithRSA | SHA1WithRSA
| SHA256WithRSA | SHA384WithRSA | SHA512WithRSA
| DSAWithSHA1 | DSAWithSHA256
| ECDSAWithSHA1 | ECDSAWithSHA256 | ECDSAWithSHA384 | ECDSAWithSHA512.

(** The fields of [x509.Certificate] that the helpers set or that
    [tls.X509KeyPair] reads; a field a struct literal does not name has
    its zero value. *)
Record Certificate := {
  SerialNumber : option big.Int;
  Issuer : pkix.Name;
  Subject : pkix.Name;
  SignatureAlgorithm_ : SignatureAlgorithm;
  NotBefore : time.Time;
  NotAfter : time.Time;
  PublicKey : option crypto.PublicKey;
  BasicConstraintsValid : bool;
  IsCA : bool
}.
End x509.

Module pem.
(** [pem.Block] *)
Record Block := {
  Type_ : string;
  Headers : list (string * string);
  Bytes : bytes
}.
End pem.

Module tls.
(** [tls.Certificate]: the chain and the private key. *)
Record Certificate := {
  Certificate_ : list bytes;
  PrivateKey : option crypto.PrivateKey
}.
Definition zero : Certificate := {| Certificate_ := []; PrivateKey := None |}.
End tls.

Module config.
(** Modelled from the spec: [config.StatusConfig], [config.NatsConfig],
    [config.LoggingConfig], [config.OAuthConfig] and [config.Tracing]
    (package [gorouter/config]) are not among the sources; each record has
    the fields the helpers name in its literal. *)
Record StatusConfig := {
  Status_Port : Z;
  Status_User : string;
  Status_Pass : string
}.

Record NatsConfig := {
  Nats_Host : string;
  Nats_Port : Z;
  Nats_User : string;
  Nats_Pass : string
}.

Record LoggingConfig := {
  Level : string;
  MetronAddress : string;
  JobName : string
}.

Record OAuthConfig := {
  TokenEndpoint : string;
  OAuth_Port : Z;
  SkipSSLValidation : bool
}.

Record Tracing := { EnableZipkin : bool }.

(** Modelled from the spec: the declaration of [config.Config] (package
    [gorouter/config]) is not among the sources.  The record has the
    fields the helpers assign: the status, proxy and SSL ports, the NATS
    endpoints, the logging target, the OAuth token endpoint, the
    route-service secret, the cipher string, the SSL and tracing toggles
    and the [TLSPEM] field that receives the certificate text.  Ports are
    [uint16] values, intervals are [time.Duration]. *)
Record Config := {
  Port : Z;
  Index : Z;
  TraceKey : string;
  Ip : string;
  StartResponseDelayInterval : time.Duration;
  PublishStartMessageInterval : time.Duration;
  PruneStaleDropletsInterval : time.Duration;
  DropletStaleThreshold : time.Duration;
  PublishActiveAppsInterval : time.Duration;
  Zone : string;
  EndpointTimeout : time.Duration;
  Status : StatusConfig;
  Nats : list NatsConfig;
  Logging : LoggingConfig;
  OAuth : OAuthConfig;
  RouteServiceSecret : string;
  Tracing_ : Tracing;
  EnableSSL : bool;
  TLSPEM : list string;
  SSLPort : Z;
  CipherString : string
}.
End config.

(** ** The library operations the helpers call

    Operations that read entropy or the clock take the [World] and return
    the next one.  An operation with a Go result [(v, err)] returns a
    [with_err]. *)
Class Library := {
  World : Type;
  io_Reader : Type;
  (** [crypto/rand.Reader], the system's cryptographically secure source *)
  rand_Reader : io_Reader;
  (** [crypto/rand.Int(reader, max)] *)
  rand_Int : io_Reader -> big.Int -> World -> with_err big.Int * World;
  (** [time.Now()] *)
  time_Now : World -> time.Time * World;
  (** [rsa.GenerateKey(reader, bits)] *)
  rsa_GenerateKey : io_Reader -> Z -> World -> with_err rsa.PrivateKey * World;
  (** [ecdsa.GenerateKey(curve, reader)] *)
  ecdsa_GenerateKey :
    elliptic.Curve -> io_Reader -> World -> with_err ecdsa.PrivateKey * World;
  (** [x509.CreateCertificate(reader, template, parent, pub, priv)] *)
  x509_CreateCertificate :
    io_Reader -> x509.Certificate -> x509.Certificate ->
    crypto.PublicKey -> crypto.PrivateKey -> World -> with_err bytes * World;
  x509_MarshalPKCS1PrivateKey : rsa.PrivateKey -> bytes;
  x509_MarshalECPrivateKey : ecdsa.PrivateKey -> with_err bytes;
  (** [asn1.Marshal(val)], at an object identifier *)
  asn1_Marshal : asn1.ObjectIdentifier -> with_err bytes;
  pem_EncodeToMemory : pem.Block -> bytes;
  (** [pem.Decode(data)]: the next block, if any, and the rest of the input *)
  pem_Decode : bytes -> option pem.Block * bytes;
  x509_ParseCertificate : bytes -> with_err x509.Certificate;
  x509_ParsePKCS1PrivateKey : bytes -> with_err rsa.PrivateKey;
  x509_ParsePKCS8PrivateKey : bytes -> with_err crypto.PrivateKey;
  x509_ParseECPrivateKey : bytes -> with_err ecdsa.PrivateKey;
  (** [config.DefaultConfig()], package [gorouter/config], not among the
      sources *)
  config_DefaultConfig : config.Config
}.

(** ** Effects: state passing with abort *)

Inductive outcome (W A : Type) : Type :=
| Returned (a : A) (w : W)
| Aborted (e : error) (w : W).
Arguments Returned {W A} a w.
Arguments Aborted {W A} e w.

Definition M {L : Library} (A : Type) : Type := World -> outcome World A.

Definition ret {L : Library} {A : Type} (a : A) : M A := fun w => Returned a w.

Definition bind {L : Library} {A B : Type} (m : M A) (k : A -> M B) : M B :=
  fun w =>
    match m w with
    | Returned a w' => k a w'
    | Aborted e w' => Aborted e w'
    end.

(** A library call that uses the world. *)
Definition call {L : Library} {A : Type} (f : World -> A * World) : M A :=
  fun w => let (a, w') := f w in Returned a w'.

(** gomega's [Expect(err).ToNot(HaveOccurred())]: a non-nil error fails the
    expectation, and the fail handler aborts the caller. *)
Definition Expect_ToNot_HaveOccurred {L : Library} (err : option error) : M unit :=
  fun w =>
    match err with
    | None => Returned tt w
    | Some e => Aborted e w
    end.

Declare Scope go_scope.
Delimit Scope go_scope with go.
Notation "x <- c ;; k" := (bind c (fun x => k))
  (at level 100, c at next level, right associativity) : go_scope.
Notation "' p <- c ;; k" := (bind c (fun x => let 'p := x in k))
  (at level 100, p pattern, c at next level, right associativity) : go_scope.
Notation "c ;;; k" := (bind c (fun _ => k))
  (at level 100, right associativity) : go_scope.

(** ** The helpers *)

Section Helpers.
Context {L : Library}.
Local Open Scope go_scope.

(** [fmt.Sprintf("%s%s", a, b)] and [fmt.Sprintf("%s\n%s", a, b)] *)
Definition Sprintf_s_s (a b : string) : string := (a ++ b)%string.
Definition Sprintf_s_nl_s (a b : string) : string := (a ++ newline ++ b)%string.

Definition CreateKeyPair (cname : string) : M (bytes * bytes) :=
  let serialNumberLimit := big.Lsh (big.NewInt 1) 128 in
  '(serialNumber, err) <- call (rand_Int rand_Reader serialNumberLimit) ;;
  Expect_ToNot_HaveOccurred err ;;;
  let subject :=
    {| pkix.Country := []; pkix.Organization := ["xyz, Inc."];
       pkix.OrganizationalUnit := []; pkix.Locality := [];
       pkix.Province := []; pkix.StreetAddress := []; pkix.PostalCode := [];
       pkix.SerialNumber := EmptyString; pkix.CommonName := EmptyString;
       pkix.ExtraNames := [] |} in
  let subject :=
    if negb (String.eqb cname EmptyString)
    then pkix.set_CommonName cname subject else subject in
  now1 <- call time_Now ;;
  now2 <- call time_Now ;;
  let tmpl :=
    {| x509.SerialNumber := Some serialNumber;
       x509.Issuer := pkix.zero;
       x509.Subject := subject;
       x509.SignatureAlgorithm_ := x509.SHA256WithRSA;
       x509.NotBefore := now1;
       x509.NotAfter := time.Add now2 time.Hour;
       x509.PublicKey := None;
       x509.BasicConstraintsValid := true;
       x509.IsCA := false |} in
  '(privKey, err) <- call (rsa_GenerateKey rand_Reader 2048) ;;
  Expect_ToNot_HaveOccurred err ;;;
  '(certDER, err) <-
    call (x509_CreateCertificate rand_Reader tmpl tmpl
            (crypto.RSAPublicKey (rsa.Public privKey))
            (crypto.RSAPrivateKey privKey)) ;;
  Expect_ToNot_HaveOccurred err ;;;
  let b := {| pem.Type_ := "CERTIFICATE"; pem.Headers := [];
              pem.Bytes := certDER |} in
  let certPEM := pem_EncodeToMemory b in
  let keyPEM :=
    pem_EncodeToMemory
      {| pem.Type_ := "RSA PRIVATE KEY"; pem.Headers := [];
         pem.Bytes := x509_MarshalPKCS1PrivateKey privKey |} in
  ret (keyPEM, certPEM).

Definition CreateECKeyPair (cname : string) : M (bytes * bytes) :=
  let serialNumberLimit := big.Lsh (big.NewInt 1) 128 in
  '(serialNumber, err) <- call (rand_Int rand_Reader serialNumberLimit) ;;
  Expect_ToNot_HaveOccurred err ;;;
  let subject :=
    {| pkix.Country := []; pkix.Organization := ["xyz, Inc."];
       pkix.OrganizationalUnit := []; pkix.Locality := [];
       pkix.Province := []; pkix.StreetAddress := []; pkix.PostalCode := [];
       pkix.SerialNumber := EmptyString; pkix.CommonName := EmptyString;
       pkix.ExtraNames := [] |} in
  let subject :=
    if negb (String.eqb cname EmptyString)
    then pkix.set_CommonName cname subject else subject in
  now1 <- call time_Now ;;
  now2 <- call time_Now ;;
  let tmpl :=
    {| x509.SerialNumber := Some serialNumber;
       x509.Issuer := pkix.zero;
       x509.Subject := subject;
       x509.SignatureAlgorithm_ := x509.ECDSAWithSHA256;
       x509.NotBefore := now1;
       x509.NotAfter := time.Add now2 time.Hour;
       x509.PublicKey := None;
       x509.BasicConstraintsValid := true;
       x509.IsCA := false |} in
  let elliptic := elliptic.P256 in
  '(privKey, err) <- call (ecdsa_GenerateKey elliptic rand_Reader) ;;
  Expect_ToNot_HaveOccurred err ;;;
  '(certDER, err) <-
    call (x509_CreateCertificate rand_Reader tmpl tmpl
            (crypto.ECDSAPublicKey (ecdsa.Public privKey))
            (crypto.ECDSAPrivateKey privKey)) ;;
  Expect_ToNot_HaveOccurred err ;;;
  let b := {| pem.Type_ := "CERTIFICATE"; pem.Headers := [];
              pem.Bytes := certDER |} in
  let certPEM := pem_EncodeToMemory b in
  let '(privBytes, err) := x509_MarshalECPrivateKey privKey in
  Expect_ToNot_HaveOccurred err ;;;
  let keyPEM :=
    pem_EncodeToMemory
      {| pem.Type_ := "EC PRIVATE KEY"; pem.Headers := [];
         pem.Bytes := privBytes |} in
  (* [err] is assigned here and not read again *)
  let '(ecdsaOid, err) := asn1_Marshal [1; 2; 840; 10045; 4; 3; 2] in
  let paramPEM :=
    pem_EncodeToMemory
      {| pem.Type_ := "EC PARAMETERS"; pem.Headers := [];
         pem.Bytes := ecdsaOid |} in
  let keyPEM :=
    bytes_of_string
      (Sprintf_s_s (string_of_bytes paramPEM) (string_of_bytes keyPEM)) in
  ret (keyPEM, certPEM).

(** *** [crypto/tls.X509KeyPair]

    The standard library's pairing of a certificate PEM with a key PEM,
    over the decoders and parsers of [Library].  Every decoded block
    consumes input, so each loop runs at most once per input byte; the
    bound is the fuel, and a decoder that exceeds it is reported as an
    error. *)

Definition show_types (l : list string) : string :=
  ("[" ++ String.concat " " l ++ "]")%string.

Fixpoint certBlocks (fuel : nat) (certPEMBlock : bytes)
    (chain : list bytes) (skippedBlockTypes : list string)
    : option (list bytes * list string) :=
  match fuel with
  | O => None
  | S fuel' =>
      match pem_Decode certPEMBlock with
      | (None, _) => Some (chain, skippedBlockTypes)
      | (Some certDERBlock, rest) =>
          if String.eqb (pem.Type_ certDERBlock) "CERTIFICATE"
          then certBlocks fuel' rest (chain ++ [pem.Bytes certDERBlock])
                 skippedBlockTypes
          else certBlocks fuel' rest chain
                 (skippedBlockTypes ++ [pem.Type_ certDERBlock])
      end
  end.

Fixpoint keyBlock (fuel : nat) (keyPEMBlock : bytes)
    (skippedBlockTypes : list string) : with_err (option pem.Block) :=
  match fuel with
  | O => (None, Some "tls: key input does not shrink")
  | S fuel' =>
      match pem_Decode keyPEMBlock with
      | (None, _) =>
          match skippedBlockTypes with
          | [] => (None, Some "tls: failed to find any PEM data in key input")
          | [t] =>
              if String.eqb t "CERTIFICATE"
              then (None, Some "tls: found a certificate rather than a key in the PEM for the private key")
              else (None, Some ("tls: failed to find PEM block with type ending in PRIVATE KEY in key input after skipping PEM blocks of the following types: " ++ show_types skippedBlockTypes)%string)
          | _ => (None, Some ("tls: failed to find PEM block with type ending in PRIVATE KEY in key input after skipping PEM blocks of the following types: " ++ show_types skippedBlockTypes)%string)
          end
      | (Some keyDERBlock, rest) =>
          if String.eqb (pem.Type_ keyDERBlock) "PRIVATE KEY"
             || strings.HasSuffix (pem.Type_ keyDERBlock) " PRIVATE KEY"
          then (Some keyDERBlock, None)
          else keyBlock fuel' rest
                 (skippedBlockTypes ++ [pem.Type_ keyDERBlock])
      end
  end.

(** [parsePrivateKey]: PKCS#1, then PKCS#8, then SEC 1. *)
Definition parsePrivateKey (der : bytes) : with_err (option crypto.PrivateKey) :=
  match x509_ParsePKCS1PrivateKey der with
  | (key, None) => (Some (crypto.RSAPrivateKey key), None)
  | (_, Some _) =>
      match x509_ParsePKCS8PrivateKey der with
      | (key, None) =>
          match key with
          | crypto.RSAPrivateKey _ | crypto.ECDSAPrivateKey _ => (Some key, None)
          | crypto.OtherPrivateKey _ =>
              (None, Some "tls: found unknown private key type in PKCS#8 wrapping")
          end
      | (_, Some _) =>
          match x509_ParseECPrivateKey der with
          | (key, None) => (Some (crypto.ECDSAPrivateKey key), None)
          | (_, Some _) => (None, Some "tls: failed to parse private key")
          end
      end
  end.

Definition tls_X509KeyPair (certPEMBlock keyPEMBlock : bytes)
    : with_err tls.Certificate :=
  let fail (err : error) : with_err tls.Certificate := (tls.zero, Some err) in
  match certBlocks (S (List.length certPEMBlock)) certPEMBlock [] [] with
  | None => fail "tls: certificate input does not shrink"
  | Some ([], []) =>
      fail "tls: failed to find any PEM data in certificate input"
  | Some ([], [t]) =>
      if strings.HasSuffix t "PRIVATE KEY"
      then fail "tls: failed to find certificate PEM data in certificate input, but did find a private key; PEM inputs may have been switched"
      else fail ("tls: failed to find CERTIFICATE PEM block in certificate input after skipping PEM blocks of the following types: " ++ show_types [t])%string
  | Some ([], skipped) =>
      fail ("tls: failed to find CERTIFICATE PEM block in certificate input after skipping PEM blocks of the following types: " ++ show_types skipped)%string
  | Some (first :: more, _) =>
      match keyBlock (S (List.length keyPEMBlock)) keyPEMBlock [] with
      | (_, Some err) => fail err
      | (None, None) => fail "tls: failed to find any PEM data in key input"
      | (Some keyDERBlock, None) =>
          match parsePrivateKey (pem.Bytes keyDERBlock) with
          | (_, Some err) => fail err
          | (privateKey, None) =>
              match x509_ParseCertificate first with
              | (_, Some err) => fail err
              | (x509Cert, None) =>
                  let cert := {| tls.Certificate_ := first :: more;
                                 tls.PrivateKey := privateKey |} in
                  match x509.PublicKey x509Cert with
                  | Some (crypto.RSAPublicKey pub) =>
                      match privateKey with
                      | Some (crypto.RSAPrivateKey priv) =>
                          if negb (Z.eqb (rsa.N pub) (rsa.N (rsa.Public priv)))
                          then fail "tls: private key does not match public key"
                          else (cert, None)
                      | _ => fail "tls: private key type does not match public key type"
                      end
                  | Some (crypto.ECDSAPublicKey pub) =>
                      match privateKey with
                      | Some (crypto.ECDSAPrivateKey priv) =>
                          if negb (Z.eqb (ecdsa.X pub) (ecdsa.X (ecdsa.Public priv)))
                             || negb (Z.eqb (ecdsa.Y pub) (ecdsa.Y (ecdsa.Public priv)))
                          then fail "tls: private key does not match public key"
                          else (cert, None)
                      | _ => fail "tls: private key type does not match public key type"
                      end
                  | _ => fail "tls: unknown public key algorithm"
                  end
              end
          end
      end
  end.

Definition CreateCert (cname : string) : M tls.Certificate :=
  '(privKeyPEM, certPEM) <- CreateKeyPair cname ;;
  let '(tlsCert, err) := tls_X509KeyPair certPEM privKeyPEM in
  Expect_ToNot_HaveOccurred err ;;;
  ret tlsCert.

Definition CreateECCert (cname : string) : M tls.Certificate :=
  '(privKeyPEM, certPEM) <- CreateECKeyPair cname ;;
  let '(tlsCert, err) := tls_X509KeyPair certPEM privKeyPEM in
  Expect_ToNot_HaveOccurred err ;;;
  ret tlsCert.

(** *** Configurations *)

Definition generateConfig (statusPort proxyPort : Z) (natsPorts : list Z)
    : config.Config :=
  let c := config_DefaultConfig in
  {| config.Port := proxyPort;
     config.Index := 2;
     config.TraceKey := "my_trace_key";
     config.Ip := "127.0.0.1";
     config.StartResponseDelayInterval := 1 * time.Second;
     config.PublishStartMessageInterval := 10 * time.Second;
     config.PruneStaleDropletsInterval := 0;
     config.DropletStaleThreshold := 10 * time.Second;
     config.PublishActiveAppsInterval := 0;
     config.Zone := "z1";
     config.EndpointTimeout := 500 * time.Millisecond;
     config.Status :=
       {| config.Status_Port := statusPort;
          config.Status_User := "user";
          config.Status_Pass := "pass" |};
     config.Nats :=
       fold_left
         (fun nats natsPort =>
            nats ++ [{| config.Nats_Host := "localhost";
                        config.Nats_Port := natsPort;
                        config.Nats_User := "nats";
                        config.Nats_Pass := "nats" |}])
         natsPorts [];
     config.Logging :=
       {| config.Level := "debug";
          config.MetronAddress := "localhost:3457";
          config.JobName := "router_test_z1_0" |};
     config.OAuth :=
       {| config.TokenEndpoint := "uaa.cf.service.internal";
          config.OAuth_Port := 8443;
          config.SkipSSLValidation := true |};
     config.RouteServiceSecret := "kCvXxNMB0JO2vinxoru9Hg==";
     config.Tracing_ := {| config.EnableZipkin := true |};
     config.EnableSSL := config.EnableSSL c;
     config.TLSPEM := config.TLSPEM c;
     config.SSLPort := config.SSLPort c;
     config.CipherString := config.CipherString c |}.

Definition SpecConfig (statusPort proxyPort : Z) (natsPorts : list Z)
    : config.Config :=
  generateConfig statusPort proxyPort natsPorts.

(** The assignments of [SpecSSLConfig] to [c], in one update. *)
Definition with_ssl (tlsPEM : list string) (sslPort : Z) (cipher : string)
    (c : config.Config) : config.Config :=
  {| config.Port := config.Port c;
     config.Index := config.Index c;
     config.TraceKey := config.TraceKey c;
     config.Ip := config.Ip c;
     config.StartResponseDelayInterval := config.StartResponseDelayInterval c;
     config.PublishStartMessageInterval := config.PublishStartMessageInterval c;
     config.PruneStaleDropletsInterval := config.PruneStaleDropletsInterval c;
     config.DropletStaleThreshold := config.DropletStaleThreshold c;
     config.PublishActiveAppsInterval := config.PublishActiveAppsInterval c;
     config.Zone := config.Zone c;
     config.EndpointTimeout := config.EndpointTimeout c;
     config.Status := config.Status c;
     config.Nats := config.Nats c;
     config.Logging := config.Logging c;
     config.OAuth := config.OAuth c;
     config.RouteServiceSecret := config.RouteServiceSecret c;
     config.Tracing_ := config.Tracing_ c;
     config.EnableSSL := true;
     config.TLSPEM := tlsPEM;
     config.SSLPort := sslPort;
     config.CipherString := cipher |}.

Definition SpecSSLConfig (statusPort proxyPort SSLPort : Z)
    (natsPorts : list Z) : M config.Config :=
  let c := generateConfig statusPort proxyPort natsPorts in
  '(key, cert) <- CreateKeyPair "potato.com" ;;
  '(secondKey, secondCert) <- CreateKeyPair "potato2.com" ;;
  ret (with_ssl
         [Sprintf_s_nl_s (string_of_bytes key) (string_of_bytes cert);
          Sprintf_s_nl_s (string_of_bytes secondKey) (string_of_bytes secondCert)]
         SSLPort
         "TLS_ECDHE_RSA_WITH_AES_128_GCM_SHA256:TLS_ECDHE_RSA_WITH_AES_256_GCM_SHA384"
         c).

(** *** Reading a PEM text block by block

    What a consumer of the key text does: [pem.Decode] until it finds no
    further block.  [None] when the fuel runs out. *)
Fixpoint decode_blocks (fuel : nat) (data : bytes) : option (list pem.Block) :=
  match fuel with
  | O => None
  | S fuel' =>
      match pem_Decode data with
      | (None, _) => Some []
      | (Some blk, rest) =>
          match decode_blocks fuel' rest with
          | Some l => Some (blk :: l)
          | None => None
          end
      end
  end.

Definition pem_blocks (data : bytes) : option (list pem.Block) :=
  decode_blocks (S (List.length data)) data.
End Helpers.

(** ** Names used in the statements *)

Section Statements.
Context {L : Library}.

(** [x509.go]'s [oidSignatureECDSAWithSHA256], the identifier
    [CreateECKeyPair] marshals into the parameters block. *)
Definition oidSignatureECDSAWithSHA256 : asn1.ObjectIdentifier :=
  [1; 2; 840; 10045; 4; 3; 2].

Definition block (label : string) (payload : bytes) : pem.Block :=
  {| pem.Type_ := label; pem.Headers := []; pem.Bytes := payload |}.

(** [certPEM] is the text of a certificate that [x509.CreateCertificate]
    made in world [w] from [template], [parent], [pub] and [priv],
    leaving world [w']. *)
Definition created (w : World) (template parent : x509.Certificate)
    (pub : crypto.PublicKey) (priv : crypto.PrivateKey)
    (certPEM : bytes) (w' : World) : Prop :=
  exists certDER,
    x509_CreateCertificate rand_Reader template parent pub priv w
      = ((certDER, None), w') /\
    certPEM = pem_EncodeToMemory (block "CERTIFICATE" certDER).

(** What [x509.CreateCertificate] writes as the issuer and as the subject
    of the certificate: the parent's and the template's subject. *)
Definition issuer_written (template parent : x509.Certificate) : pkix.RDNSequence :=
  pkix.ToRDNSequence (x509.Subject parent).
Definition subject_written (template parent : x509.Certificate) : pkix.RDNSequence :=
  pkix.ToRDNSequence (x509.Subject template).

Definition organization_attribute : pkix.AttributeTypeAndValue :=
  {| pkix.Type_ := pkix.oidOrganization; pkix.Value := "xyz, Inc." |}.
Definition common_name_attribute (cname : string) : pkix.AttributeTypeAndValue :=
  {| pkix.Type_ := pkix.oidCommonName; pkix.Value := cname |}.

(** The two generators. *)
Inductive algorithm := RSA | EC.

Definition generate (a : algorithm) : string -> M (bytes * bytes) :=
  match a with RSA => CreateKeyPair | EC => CreateECKeyPair end.

Definition assemble (a : algorithm) : string -> M tls.Certificate :=
  match a with RSA => CreateCert | EC => CreateECCert end.

(** [priv] is the key the generator made in world [w], leaving [w']. *)
Definition generated (a : algorithm) (w : World) (priv : crypto.PrivateKey)
    (w' : World) : Prop :=
  match a with
  | RSA => exists k, rsa_GenerateKey rand_Reader 2048 w = ((k, None), w') /\
                     priv = crypto.RSAPrivateKey k
  | EC => exists k, ecdsa_GenerateKey elliptic.P256 rand_Reader w
                      = ((k, None), w') /\
                    priv = crypto.ECDSAPrivateKey k
  end.

(** The public half of a private key. *)
Definition public_of (priv : crypto.PrivateKey) : option crypto.PublicKey :=
  match priv with
  | crypto.RSAPrivateKey k => Some (crypto.RSAPublicKey (rsa.Public k))
  | crypto.ECDSAPrivateKey k => Some (crypto.ECDSAPublicKey (ecdsa.Public k))
  | crypto.OtherPrivateKey _ => None
  end.

(** [keyPEM] is the key text the generator returns for [priv]. *)
Definition key_text (a : algorithm) (priv : crypto.PrivateKey)
    (keyPEM : bytes) : Prop :=
  match a with
  | RSA => exists k, priv = crypto.RSAPrivateKey k /\
             keyPEM = pem_EncodeToMemory
                        (block "RSA PRIVATE KEY" (x509_MarshalPKCS1PrivateKey k))
  | EC => exists k privBytes, priv = crypto.ECDSAPrivateKey k /\
             x509_MarshalECPrivateKey k = (privBytes, None) /\
             keyPEM = pem_EncodeToMemory
                        (block "EC PARAMETERS"
                           (fst (asn1_Marshal oidSignatureECDSAWithSHA256)))
                      ++ pem_EncodeToMemory (block "EC PRIVATE KEY" privBytes)
  end.

Definition signature_of (a : algorithm) : x509.SignatureAlgorithm :=
  match a with RSA => x509.SHA256WithRSA | EC => x509.ECDSAWithSHA256 end.

(** The subject and the template of both generators, from the serial
    number and the two readings of the clock. *)
Definition subject_of (cname : string) : pkix.Name :=
  {| pkix.Country := []; pkix.Organization := ["xyz, Inc."];
     pkix.OrganizationalUnit := []; pkix.Locality := [];
     pkix.Province := []; pkix.StreetAddress := []; pkix.PostalCode := [];
     pkix.SerialNumber := EmptyString; pkix.CommonName := cname;
     pkix.ExtraNames := [] |}.

Definition template_of (a : algorithm) (serialNumber : big.Int)
    (cname : string) (now1 now2 : time.Time) : x509.Certificate :=
  {| x509.SerialNumber := Some serialNumber;
     x509.Issuer := pkix.zero;
     x509.Subject := subject_of cname;
     x509.SignatureAlgorithm_ := signature_of a;
     x509.NotBefore := now1;
     x509.NotAfter := now2 + 3600 * 1000000000;
     x509.PublicKey := None;
     x509.BasicConstraintsValid := true;
     x509.IsCA := false |}.

(** A certified public key and a private key that [tls.X509KeyPair]
    accepts as a pair. *)
Definition keys_match (pub : crypto.PublicKey) (priv : crypto.PrivateKey) : Prop :=
  match pub, priv with
  | crypto.RSAPublicKey p, crypto.RSAPrivateKey k =>
      rsa.N p = rsa.N (rsa.Public k)
  | crypto.ECDSAPublicKey p, crypto.ECDSAPrivateKey k =>
      ecdsa.X p = ecdsa.X (ecdsa.Public k) /\
      ecdsa.Y p = ecdsa.Y (ecdsa.Public k)
  | _, _ => False
  end.


(** *** What the claims assume of the library *)

(** [rand.Int] returns a value in [[0, max)]. *)
Definition rand_Int_in_range : Prop :=
  forall r max w n w',
    0 < max -> rand_Int r max w = ((n, None), w') -> 0 <= n < max.

(** Two successive readings of the clock are in order and at most [res]
    apart. *)
Definition clock_within (res : time.Duration) : Prop :=
  forall w t1 w1 t2 w2,
    time_Now w = (t1, w1) -> time_Now w1 = (t2, w2) ->
    0 <= time.Sub t2 t1 <= res.

Definition pem_label (t : string) : Prop :=
  In t ["CERTIFICATE"; "RSA PRIVATE KEY"; "EC PRIVATE KEY"; "EC PARAMETERS"].

(** [pem.Decode] reads back a block that [pem.EncodeToMemory] wrote, and
    returns what follows it. *)
Definition pem_Decode_Encode : Prop :=
  forall t payload rest,
    pem_label t ->
    pem_Decode (pem_EncodeToMemory (block t payload) ++ rest)
      = (Some (block t payload), rest).

(** [pem.Decode] finds no block in the empty input. *)
Definition pem_Decode_empty : Prop :=
  pem_Decode [] = (None, []).

(** [x509.ParseCertificate] reads the certified public key back. *)
Definition Parse_CreateCertificate : Prop :=
  forall r template parent pub priv w certDER w',
    x509_CreateCertificate r template parent pub priv w
      = ((certDER, None), w') ->
    exists c, x509_ParseCertificate certDER = (c, None) /\
              x509.PublicKey c = Some pub.

(** A generated RSA key, marshalled as PKCS#1, parses as PKCS#1 to a key
    with the same public key. *)
Definition Parse_MarshalPKCS1 : Prop :=
  forall r bits w k w',
    rsa_GenerateKey r bits w = ((k, None), w') ->
    exists k', x509_ParsePKCS1PrivateKey (x509_MarshalPKCS1PrivateKey k)
                 = (k', None) /\
               rsa.Public k' = rsa.Public k.

(** A generated EC key, marshalled as SEC 1, is neither PKCS#1 nor PKCS#8
    and parses as SEC 1 to a key with the same public key. *)
Definition Parse_MarshalEC : Prop :=
  forall c r w k w' der,
    ecdsa_GenerateKey c r w = ((k, None), w') ->
    x509_MarshalECPrivateKey k = (der, None) ->
    snd (x509_ParsePKCS1PrivateKey der) <> None /\
    snd (x509_ParsePKCS8PrivateKey der) <> None /\
    exists k', x509_ParseECPrivateKey der = (k', None) /\
               ecdsa.Public k' = ecdsa.Public k.
End Statements.

(** ** A small deterministic library

    It runs the helpers on concrete inputs and meets the assumptions above
    together.  Numbers are written bit by bit, byte strings byte by byte
    behind a marker, so that every value reads back. *)
Module Mock.
Fixpoint enc_pos (p : positive) : bytes :=
  match p with
  | xH => [x00]
  | xO q => x01 :: enc_pos q
  | xI q => x02 :: enc_pos q
  end.

Fixpoint dec_pos (l : bytes) : option (positive * bytes) :=
  match l with
  | x00 :: r => Some (xH, r)
  | x01 :: r =>
      match dec_pos r with Some (q, r') => Some (xO q, r') | None => None end
  | x02 :: r =>
      match dec_pos r with Some (q, r') => Some (xI q, r') | None => None end
  | _ => None
  end.

Definition enc_Z (z : Z) : bytes :=
  match z with
  | Z0 => [x00]
  | Zpos p => x01 :: enc_pos p
  | Zneg p => x02 :: enc_pos p
  end.

Definition dec_Z (l : bytes) : option (Z * bytes) :=
  match l with
  | x00 :: r => Some (Z0, r)
  | x01 :: r =>
      match dec_pos r with Some (p, r') => Some (Zpos p, r') | None => None end
  | x02 :: r =>
      match dec_pos r with Some (p, r') => Some (Zneg p, r') | None => None end
  | _ => None
  end.

Fixpoint enc_bytes (l : bytes) : bytes :=
  match l with
  | [] => [x00]
  | b :: r => x01 :: b :: enc_bytes r
  end.

Fixpoint dec_bytes (fuel : nat) (l : bytes) : option (bytes * bytes) :=
  match fuel with
  | O => None
  | S fuel' =>
      match l with
      | x00 :: r => Some ([], r)
      | x01 :: b :: r =>
          match dec_bytes fuel' r with
          | Some (p, r') => Some (b :: p, r')
          | None => None
          end
      | _ => None
      end
  end.

Definition enc_curve (c : elliptic.Curve) : byte :=
  match c with
  | elliptic.P224 => x01 | elliptic.P256 => x02
  | elliptic.P384 => x03 | elliptic.P521 => x04
  end.

Definition dec_curve (b : byte) : option elliptic.Curve :=
  match b with
  | x01 => Some elliptic.P224 | x02 => Some elliptic.P256
  | x03 => Some elliptic.P384 | x04 => Some elliptic.P521
  | _ => None
  end.

Definition enc_pub (k : crypto.PublicKey) : bytes :=
  match k with
  | crypto.RSAPublicKey k => x01 :: enc_Z (rsa.N k) ++ enc_Z (rsa.E k)
  | crypto.ECDSAPublicKey k =>
      x02 :: enc_curve (ecdsa.Curve k) :: enc_Z (ecdsa.X k) ++ enc_Z (ecdsa.Y k)
  | crypto.OtherPublicKey raw => x03 :: enc_bytes raw
  end.

Definition dec_pub (l : bytes) : option (crypto.PublicKey * bytes) :=
  match l with
  | x01 :: r =>
      match dec_Z r with
      | Some (n, r1) =>
          match dec_Z r1 with
          | Some (e, r2) =>
              Some (crypto.RSAPublicKey {| rsa.N := n; rsa.E := e |}, r2)
          | None => None
          end
      | None => None
      end
  | x02 :: cb :: r =>
      match dec_curve cb with
      | Some c =>
          match dec_Z r with
          | Some (x, r1) =>
              match dec_Z r1 with
              | Some (y, r2) =>
                  Some (crypto.ECDSAPublicKey
                          {| ecdsa.Curve := c; ecdsa.X := x; ecdsa.Y := y |}, r2)
              | None => None
              end
          | None => None
          end
      | None => None
      end
  | x03 :: r =>
      match dec_bytes (List.length r) r with
      | Some (raw, r1) => Some (crypto.OtherPublicKey raw, r1)
      | None => None
      end
  | _ => None
  end.

Record world := { now : Z; seed : Z }.

Definition next_seed (w : world) : world :=
  {| now := now w; seed := (seed w * 25214903917 + 11) mod 2 ^ 48 |}.

Definition Int (r : unit) (max : Z) (w : world) : with_err Z * world :=
  ((seed w ^ 3 mod max, None), next_seed w).

(** The clock advances by [gap] at every reading. *)
Definition Now (gap : Z) (w : world) : Z * world :=
  (now w, {| now := now w + gap; seed := seed w |}).

Definition rsa_Generate (r : unit) (bits : Z) (w : world)
    : with_err rsa.PrivateKey * world :=
  (({| rsa.Public := {| rsa.N := 3233 + 2 * seed w; rsa.E := 65537 |};
       rsa.D := 2753 + seed w |}, None), next_seed w).

Definition ecdsa_Generate (c : elliptic.Curve) (r : unit) (w : world)
    : with_err ecdsa.PrivateKey * world :=
  (({| ecdsa.Public := {| ecdsa.Curve := c; ecdsa.X := 5 + seed w;
                          ecdsa.Y := 7 + 3 * seed w |};
       ecdsa.D := 11 + seed w |}, None), next_seed w).

Definition enc_bool (b : bool) : byte := if b then x01 else x00.
Definition dec_bool (b : byte) : option bool :=
  match b with x00 => Some false | x01 => Some true | _ => None end.

(** The mock certificate: the public key, the serial number, the validity
    window, the two flags and the subject's common name. *)
Definition Create (r : unit) (template parent : x509.Certificate)
    (pub : crypto.PublicKey) (priv : crypto.PrivateKey) (w : world)
    : with_err bytes * world :=
  match x509.SerialNumber template with
  | None => (([], Some "x509: no SerialNumber given"), w)
  | Some s =>
      ((enc_pub pub ++ enc_Z s ++ enc_Z (x509.NotBefore template)
          ++ enc_Z (x509.NotAfter template)
          ++ enc_bool (x509.BasicConstraintsValid template)
          :: enc_bool (x509.IsCA template)
          :: enc_bytes (bytes_of_string
                          (pkix.CommonName (x509.Subject template))),
        None), next_seed w)
  end.

Definition zero_certificate : x509.Certificate :=
  {| x509.SerialNumber := None; x509.Issuer := pkix.zero;
     x509.Subject := pkix.zero;
     x509.SignatureAlgorithm_ := x509.UnknownSignatureAlgorithm;
     x509.NotBefore := 0; x509.NotAfter := 0; x509.PublicKey := None;
     x509.BasicConstraintsValid := false; x509.IsCA := false |}.

Definition malformed {A : Type} (a : A) : with_err A :=
  (a, Some "asn1: structure error").

Definition ParseCertificate (der : bytes) : with_err x509.Certificate :=
  match dec_pub der with
  | Some (pub, r1) =>
    match dec_Z r1 with
    | Some (s, r2) =>
      match dec_Z r2 with
      | Some (nb, r3) =>
        match dec_Z r3 with
        | Some (na, bcv :: ca :: r4) =>
          match dec_bool bcv, dec_bool ca, dec_bytes (List.length r4) r4 with
          | Some bcv, Some ca, Some (cn, []) =>
              ({| x509.SerialNumber := Some s; x509.Issuer := pkix.zero;
                  x509.Subject :=
                    pkix.set_CommonName (string_of_bytes cn) pkix.zero;
                  x509.SignatureAlgorithm_ := x509.UnknownSignatureAlgorithm;
                  x509.NotBefore := nb; x509.NotAfter := na;
                  x509.PublicKey := Some pub;
                  x509.BasicConstraintsValid := bcv; x509.IsCA := ca |}, None)
          | _, _, _ => malformed zero_certificate
          end
        | _ => malformed zero_certificate
        end
      | None => malformed zero_certificate
      end
    | None => malformed zero_certificate
    end
  | None => malformed zero_certificate
  end.

Definition zero_rsa : rsa.PrivateKey :=
  {| rsa.Public := {| rsa.N := 0; rsa.E := 0 |}; rsa.D := 0 |}.
Definition zero_ecdsa : ecdsa.PrivateKey :=
  {| ecdsa.Public := {| ecdsa.Curve := elliptic.P224; ecdsa.X := 0;
                        ecdsa.Y := 0 |}; ecdsa.D := 0 |}.

Definition MarshalPKCS1 (k : rsa.PrivateKey) : bytes :=
  x01 :: enc_Z (rsa.N (rsa.Public k)) ++ enc_Z (rsa.E (rsa.Public k))
      ++ enc_Z (rsa.D k).

Definition ParsePKCS1 (der : bytes) : with_err rsa.PrivateKey :=
  match der with
  | x01 :: r =>
      match dec_Z r with
      | Some (n, r1) =>
          match dec_Z r1 with
          | Some (e, r2) =>
              match dec_Z r2 with
              | Some (d, []) =>
                  ({| rsa.Public := {| rsa.N := n; rsa.E := e |};
                      rsa.D := d |}, None)
              | _ => malformed zero_rsa
              end
          | None => malformed zero_rsa
          end
      | None => malformed zero_rsa
      end
  | _ => malformed zero_rsa
  end.

Definition MarshalEC (k : ecdsa.PrivateKey) : with_err bytes :=
  (x02 :: enc_curve (ecdsa.Curve (ecdsa.Public k))
       :: enc_Z (ecdsa.X (ecdsa.Public k))
       ++ enc_Z (ecdsa.Y (ecdsa.Public k)) ++ enc_Z (ecdsa.D k), None).

Definition ParseEC (der : bytes) : with_err ecdsa.PrivateKey :=
  match der with
  | x02 :: cb :: r =>
      match dec_curve cb, dec_Z r with
      | Some c, Some (x, r1) =>
          match dec_Z r1 with
          | Some (y, r2) =>
              match dec_Z r2 with
              | Some (d, []) =>
                  ({| ecdsa.Public := {| ecdsa.Curve := c; ecdsa.X := x;
                                         ecdsa.Y := y |};
                      ecdsa.D := d |}, None)
              | _ => malformed zero_ecdsa
              end
          | None => malformed zero_ecdsa
          end
      | _, _ => malformed zero_ecdsa
      end
  | _ => malformed zero_ecdsa
  end.

(** PKCS#8 is a wrapper (marker [x03]) around either key format. *)
Definition ParsePKCS8 (der : bytes) : with_err crypto.PrivateKey :=
  match der with
  | x03 :: inner =>
      match ParsePKCS1 inner with
      | (k, None) => (crypto.RSAPrivateKey k, None)
      | (_, Some _) =>
          match ParseEC inner with
          | (k, None) => (crypto.ECDSAPrivateKey k, None)
          | (_, Some e) => (crypto.OtherPrivateKey [], Some e)
          end
      end
  | _ => malformed (crypto.OtherPrivateKey [])
  end.

(** [oid_fails] chooses whether marshalling an object identifier fails. *)
Definition Marshal (oid_fails : bool) (oid : asn1.ObjectIdentifier)
    : with_err bytes :=
  if oid_fails then ([], Some "asn1: structure error: invalid object identifier")
  else (x06 :: flat_map enc_Z oid, None).

Definition Encode (b : pem.Block) : bytes :=
  enc_bytes (bytes_of_string (pem.Type_ b)) ++ enc_bytes (pem.Bytes b).

Definition Decode (data : bytes) : option pem.Block * bytes :=
  match dec_bytes (List.length data) data with
  | Some (t, r1) =>
      match dec_bytes (List.length r1) r1 with
      | Some (payload, r2) =>
          (Some {| pem.Type_ := string_of_bytes t; pem.Headers := [];
                   pem.Bytes := payload |}, r2)
      | None => (None, data)
      end
  | None => (None, data)
  end.

Definition DefaultConfig : config.Config :=
  {| config.Port := 8081; config.Index := 0;
     config.TraceKey := EmptyString; config.Ip := EmptyString;
     config.StartResponseDelayInterval := 5 * time.Second;
     config.PublishStartMessageInterval := 30 * time.Second;
     config.PruneStaleDropletsInterval := 30 * time.Second;
     config.DropletStaleThreshold := 120 * time.Second;
     config.PublishActiveAppsInterval := 0;
     config.Zone := EmptyString;
     config.EndpointTimeout := 60 * time.Second;
     config.Status :=
       {| config.Status_Port := 8082; config.Status_User := EmptyString;
          config.Status_Pass := EmptyString |};
     config.Nats := [];
     config.Logging :=
       {| config.Level := "debug"; config.MetronAddress := EmptyString;
          config.JobName := EmptyString |};
     config.OAuth :=
       {| config.TokenEndpoint := EmptyString; config.OAuth_Port := 0;
          config.SkipSSLValidation := false |};
     config.RouteServiceSecret := EmptyString;
     config.Tracing_ := {| config.EnableZipkin := false |};
     config.EnableSSL := false;
     config.TLSPEM := [];
     config.SSLPort := 443;
     config.CipherString := EmptyString |}.

Definition lib (gap : Z) (oid_fails : bool) : Library :=
  {| World := world;
     io_Reader := unit;
     rand_Reader := tt;
     rand_Int := Int;
     time_Now := Now gap;
     rsa_GenerateKey := rsa_Generate;
     ecdsa_GenerateKey := ecdsa_Generate;
     x509_CreateCertificate := Create;
     x509_MarshalPKCS1PrivateKey := MarshalPKCS1;
     x509_MarshalECPrivateKey := MarshalEC;
     asn1_Marshal := Marshal oid_fails;
     pem_EncodeToMemory := Encode;
     pem_Decode := Decode;
     x509_ParseCertificate := ParseCertificate;
     x509_ParsePKCS1PrivateKey := ParsePKCS1;
     x509_ParsePKCS8PrivateKey := ParsePKCS8;
     x509_ParseECPrivateKey := ParseEC;
     config_DefaultConfig := DefaultConfig |}.

(** A starting world, and the library with 40 ns between two readings of
    the clock. *)
Definition w0 : world := {| now := 1700000000000000000; seed := 20161103 |}.
Definition std : Library := lib 40 false.
End Mock.

(** ** Further names used in the statements *)

Section MoreStatements.
Context {L : Library}.

(** Key generation of the generator reports the error [e] in world [w],
    leaving [w']. *)
Definition key_failed (a : algorithm) (w : World) (e : error) (w' : World)
    : Prop :=
  match a with
  | RSA => exists k, rsa_GenerateKey rand_Reader 2048 w = ((k, Some e), w')
  | EC => exists k, ecdsa_GenerateKey elliptic.P256 rand_Reader w
                      = ((k, Some e), w')
  end.

(** The clock does not go backwards between two successive readings. *)
Definition clock_monotone : Prop :=
  forall w t1 w1 t2 w2,
    time_Now w = (t1, w1) -> time_Now w1 = (t2, w2) -> t1 <= t2.

(** The NATS entry that [generateConfig] appends for a port. *)
Definition nats_entry (natsPort : Z) : config.NatsConfig :=
  {| config.Nats_Host := "localhost"; config.Nats_Port := natsPort;
     config.Nats_User := "nats"; config.Nats_Pass := "nats" |}.

(** Two configurations agree on every field other than [EnableSSL],
    [TLSPEM], [SSLPort] and [CipherString]. *)
Definition same_outside_ssl (c d : config.Config) : Prop :=
  config.Port c = config.Port d /\
  config.Index c = config.Index d /\
  config.TraceKey c = config.TraceKey d /\
  config.Ip c = config.Ip d /\
  config.StartResponseDelayInterval c = config.StartResponseDelayInterval d /\
  config.PublishStartMessageInterval c = config.PublishStartMessageInterval d /\
  config.PruneStaleDropletsInterval c = config.PruneStaleDropletsInterval d /\
  config.DropletStaleThreshold c = config.DropletStaleThreshold d /\
  config.PublishActiveAppsInterval c = config.PublishActiveAppsInterval d /\
  config.Zone c = config.Zone d /\
  config.EndpointTimeout c = config.EndpointTimeout d /\
  config.Status c = config.Status d /\
  config.Nats c = config.Nats d /\
  config.Logging c = config.Logging d /\
  config.OAuth c = config.OAuth d /\
  config.RouteServiceSecret c = config.RouteServiceSecret d /\
  config.Tracing_ c = config.Tracing_ d.

(** The dynamic type of the key a generator signs with. *)
Definition key_type_of (a : algorithm) (priv : crypto.PrivateKey) : Prop :=
  match a, priv with
  | RSA, crypto.RSAPrivateKey _ => True
  | EC, crypto.ECDSAPrivateKey _ => True
  | _, _ => False
  end.
(** [keyPEM] and [certPEM] are the texts of one RSA key and its certificate
    for the common name [cname]: the key text is the "RSA PRIVATE KEY" block
    of a key that [rsa.GenerateKey] made, and the certificate text is the
    "CERTIFICATE" block of a certificate that [x509.CreateCertificate] made
    next, certifying that key's public half, signed with that key, from a
    template whose subject has the common name [cname]. *)
Definition key_and_certificate (cname : string) (keyPEM certPEM : bytes)
    (w' : World) : Prop :=
  exists tmpl privKey w0 w1,
    rsa_GenerateKey rand_Reader 2048 w0 = ((privKey, None), w1) /\
    created w1 tmpl tmpl (crypto.RSAPublicKey (rsa.Public privKey))
      (crypto.RSAPrivateKey privKey) certPEM w' /\
    pkix.CommonName (x509.Subject tmpl) = cname /\
    keyPEM = pem_EncodeToMemory
               (block "RSA PRIVATE KEY" (x509_MarshalPKCS1PrivateKey privKey)).
End MoreStatements.


(** ** The small library with one failing call *)
Module Faulty.
Inductive fault := NoEntropy | NoKey | NoSignature | NoECMarshal.

Definition is_NoEntropy (f : fault) : bool :=
  match f with NoEntropy => true | _ => false end.
Definition is_NoKey (f : fault) : bool :=
  match f with NoKey => true | _ => false end.
Definition is_NoSignature (f : fault) : bool :=
  match f with NoSignature => true | _ => false end.
Definition is_NoECMarshal (f : fault) : bool :=
  match f with NoECMarshal => true | _ => false end.

(** [Mock.std], except that the call named by [f] reports an error. *)
Definition lib (f : fault) : Library :=
  {| World := Mock.world;
     io_Reader := unit;
     rand_Reader := tt;
     rand_Int := fun r max w =>
       if is_NoEntropy f then ((0, Some "unexpected EOF"), w)
       else Mock.Int r max w;
     time_Now := Mock.Now 40;
     rsa_GenerateKey := fun r bits w =>
       if is_NoKey f
       then ((Mock.zero_rsa, Some "crypto/rsa: too few primes of given length to generate an RSA key"), w)
       else Mock.rsa_Generate r bits w;
     ecdsa_GenerateKey := fun c r w =>
       if is_NoKey f then ((Mock.zero_ecdsa, Some "unexpected EOF"), w)
       else Mock.ecdsa_Generate c r w;
     x509_CreateCertificate := fun r template parent pub priv w =>
       if is_NoSignature f
       then (([], Some "x509: requested SignatureAlgorithm does not match private key type"), w)
       else Mock.Create r template parent pub priv w;
     x509_MarshalPKCS1PrivateKey := Mock.MarshalPKCS1;
     x509_MarshalECPrivateKey := fun k =>
       if is_NoECMarshal f then ([], Some "x509: unknown elliptic curve")
       else Mock.MarshalEC k;
     asn1_Marshal := Mock.Marshal false;
     pem_EncodeToMemory := Mock.Encode;
     pem_Decode := Mock.Decode;
     x509_ParseCertificate := Mock.ParseCertificate;
     x509_ParsePKCS1PrivateKey := Mock.ParsePKCS1;
     x509_ParsePKCS8PrivateKey := Mock.ParsePKCS8;
     x509_ParseECPrivateKey := Mock.ParseEC;
     config_DefaultConfig := Mock.DefaultConfig |}.
End Faulty.

(** * Properties *)

(** ** Bytes and strings *)

Lemma string_of_bytes_app (a b : bytes) :
  string_of_bytes (a ++ b) = (string_of_bytes a ++ string_of_bytes b)%string.
Proof.
  unfold string_of_bytes, string_of_list_byte.
  induction a as [|x a IH]; cbn; [reflexivity|].
  now rewrite IH.
Qed.

Lemma Sprintf_bytes (a b : bytes) :
  bytes_of_string (Sprintf_s_s (string_of_bytes a) (string_of_bytes b)) = a ++ b.
Proof.
  unfold Sprintf_s_s, bytes_of_string.
  rewrite <- string_of_bytes_app.
  apply list_byte_of_string_of_list_byte.
Qed.

Lemma two_pow_128 : big.Lsh (big.NewInt 1) 128 = 2 ^ 128.
Proof. reflexivity. Qed.

Lemma Hour_seconds : time.Hour = 3600 * 1000000000.
Proof. reflexivity. Qed.

(** ** Runs of the generators *)

Section Runs.
Context {L : Library}.

Lemma subject_of_source (cname : string) :
  (if negb (String.eqb cname EmptyString)
   then pkix.set_CommonName cname (subject_of EmptyString)
   else subject_of EmptyString) = subject_of cname.
Proof.
  destruct (String.eqb_spec cname EmptyString) as [->|_]; reflexivity.
Qed.

(** A generator returns exactly when its library calls report no error,
    and then the certificate is created from [template_of], passed as
    template and as parent, with the key generated just before. *)
Lemma generate_Returned (a : algorithm) (cname : string) (w : World)
    (keyPEM certPEM : bytes) (w' : World) :
  generate a cname w = Returned (keyPEM, certPEM) w' <->
  exists serialNumber w1 now1 w2 now2 w3 priv pub w4,
    rand_Int rand_Reader (2 ^ 128) w = ((serialNumber, None), w1) /\
    time_Now w1 = (now1, w2) /\
    time_Now w2 = (now2, w3) /\
    generated a w3 priv w4 /\
    public_of priv = Some pub /\
    created w4 (template_of a serialNumber cname now1 now2)
      (template_of a serialNumber cname now1 now2) pub priv certPEM w' /\
    key_text a priv keyPEM.
Proof.
  destruct a; cbn [generate generated key_text].
  - unfold CreateKeyPair, bind, call, Expect_ToNot_HaveOccurred, ret.
    rewrite two_pow_128, subject_of_source.
    fold (subject_of EmptyString).
    split.
    + intros H.
      destruct (rand_Int rand_Reader (2 ^ 128) w) as [[serial [e|]] w1] eqn:E1;
        [discriminate|].
      destruct (time_Now w1) as [t1 w2] eqn:E2.
      destruct (time_Now w2) as [t2 w3] eqn:E3.
      destruct (rsa_GenerateKey rand_Reader 2048 w3) as [[k [e|]] w4] eqn:E4;
        [discriminate|].
      match type of H with
      | context [x509_CreateCertificate ?r ?t ?p ?pu ?pr ?w] =>
          destruct (x509_CreateCertificate r t p pu pr w)
            as [[der [e|]] w5] eqn:E5; [discriminate|]
      end.
      injection H as <- <- <-.
      exists serial, w1, t1, w2, t2, w3, (crypto.RSAPrivateKey k),
        (crypto.RSAPublicKey (rsa.Public k)), w4.
      refine (conj eq_refl (conj E2 (conj E3 (conj _ (conj eq_refl (conj _ _)))))).
      * exists k. split; [exact E4 | reflexivity].
      * exists der. split; [exact E5 | reflexivity].
      * exists k. split; reflexivity.
    + intros (serial & w1 & t1 & w2 & t2 & w3 & priv & pub & w4 &
              E1 & E2 & E3 & (k & E4 & ->) & Hpub & (der & E5 & ->) &
              (k' & Hk & ->)).
      injection Hk as <-. cbn in Hpub. injection Hpub as <-.
      rewrite E1, E2, E3, E4.
      unfold template_of, time.Add, signature_of in *.
      rewrite Hour_seconds. rewrite E5. reflexivity.
  - unfold CreateECKeyPair, bind, call, Expect_ToNot_HaveOccurred, ret.
    rewrite two_pow_128, subject_of_source.
    fold (subject_of EmptyString). fold oidSignatureECDSAWithSHA256.
    split.
    + intros H.
      destruct (rand_Int rand_Reader (2 ^ 128) w) as [[serial [e|]] w1] eqn:E1;
        [discriminate|].
      destruct (time_Now w1) as [t1 w2] eqn:E2.
      destruct (time_Now w2) as [t2 w3] eqn:E3.
      destruct (ecdsa_GenerateKey elliptic.P256 rand_Reader w3)
        as [[k [e|]] w4] eqn:E4; [discriminate|].
      match type of H with
      | context [x509_CreateCertificate ?r ?t ?p ?pu ?pr ?w] =>
          destruct (x509_CreateCertificate r t p pu pr w)
            as [[der [e|]] w5] eqn:E5; [discriminate|]
      end.
      destruct (x509_MarshalECPrivateKey k) as [privBytes [e|]] eqn:E6;
        [discriminate|].
      destruct (asn1_Marshal oidSignatureECDSAWithSHA256) as [oid err] eqn:E7.
      rewrite Sprintf_bytes in H.
      injection H as <- <- <-.
      exists serial, w1, t1, w2, t2, w3, (crypto.ECDSAPrivateKey k),
        (crypto.ECDSAPublicKey (ecdsa.Public k)), w4.
      refine (conj eq_refl (conj E2 (conj E3 (conj _ (conj eq_refl (conj _ _)))))).
      * exists k. split; [exact E4 | reflexivity].
      * exists der. split; [exact E5 | reflexivity].
      * exists k, privBytes.
        split; [reflexivity | split; [exact E6 | reflexivity]].
    + intros (serial & w1 & t1 & w2 & t2 & w3 & priv & pub & w4 &
              E1 & E2 & E3 & (k & E4 & ->) & Hpub & (der & E5 & ->) &
              (k' & privBytes & Hk & E6 & ->)).
      injection Hk as <-. cbn in Hpub. injection Hpub as <-.
      rewrite E1, E2, E3, E4.
      unfold template_of, time.Add, signature_of in *.
      rewrite Hour_seconds. rewrite E5, E6.
      destruct (asn1_Marshal oidSignatureECDSAWithSHA256) as [oid err].
      rewrite Sprintf_bytes. reflexivity.
Qed.

Lemma subject_of_written (cname : string) :
  pkix.ToRDNSequence (subject_of cname) =
    [organization_attribute] ::
    (if String.eqb cname EmptyString then []
     else [[common_name_attribute cname]]).
Proof. destruct cname; reflexivity. Qed.

(** C1. The certificate of either generator is created from a template
    whose subject has the given common name and the organization
    "xyz, Inc."; the subject written into the certificate is the
    organization attribute followed by the common-name attribute, and for
    the empty common name it is the organization attribute alone, with no
    common-name attribute. *)
Theorem subject_common_name (a : algorithm) (cname : string) (w : World)
    (keyPEM certPEM : bytes) (w' : World) :
  generate a cname w = Returned (keyPEM, certPEM) w' ->
  exists tmpl pub priv w1,
    created w1 tmpl tmpl pub priv certPEM w' /\
    pkix.CommonName (x509.Subject tmpl) = cname /\
    pkix.Organization (x509.Subject tmpl) = ["xyz, Inc."] /\
    subject_written tmpl tmpl =
      [organization_attribute] ::
      (if String.eqb cname EmptyString then []
       else [[common_name_attribute cname]]) /\
    (cname = EmptyString ->
     subject_written tmpl tmpl = [[organization_attribute]] /\
     pkix.has_attribute pkix.oidCommonName (subject_written tmpl tmpl) = false).
Proof.
  intros H. apply generate_Returned in H.
  destruct H as (serial & w1 & t1 & w2 & t2 & w3 & priv & pub & w4 &
                 _ & _ & _ & _ & _ & Hc & _).
  exists (template_of a serial cname t1 t2), pub, priv, w4.
  split; [exact Hc|].
  split; [reflexivity|]. split; [reflexivity|].
  unfold subject_written. cbn [x509.Subject template_of].
  split; [apply subject_of_written|].
  intros ->. split; reflexivity.
Qed.

(** C2. The certificate of either generator is self-signed: the generator
    passes one template to [x509.CreateCertificate] as template and as
    parent, so the issuer written is the subject written; the public key
    certified is the public half of the signing key, which is the key
    generated in this call and the key whose text is returned. *)
Theorem self_signed (a : algorithm) (cname : string) (w : World)
    (keyPEM certPEM : bytes) (w' : World) :
  generate a cname w = Returned (keyPEM, certPEM) w' ->
  exists tmpl parent pub priv w0 w1,
    generated a w0 priv w1 /\
    public_of priv = Some pub /\
    created w1 tmpl parent pub priv certPEM w' /\
    parent = tmpl /\
    issuer_written tmpl parent = subject_written tmpl parent /\
    key_text a priv keyPEM.
Proof.
  intros H. apply generate_Returned in H.
  destruct H as (serial & w1 & t1 & w2 & t2 & w3 & priv & pub & w4 &
                 _ & _ & _ & Hg & Hp & Hc & Hk).
  exists (template_of a serial cname t1 t2), (template_of a serial cname t1 t2),
    pub, priv, w3, w4.
  repeat split; assumption || reflexivity.
Qed.

(** C4. [NotBefore] is the reading of the clock taken when the template is
    built and [NotAfter] is the next reading plus one hour, so the window
    is 3600 seconds plus the time between the two readings; with a clock
    whose successive readings are at most [res] apart, the window is
    3600 seconds within [res]. *)
Theorem validity_window (res : time.Duration) (Hclock : clock_within res)
    (a : algorithm) (cname : string) (w : World)
    (keyPEM certPEM : bytes) (w' : World) :
  generate a cname w = Returned (keyPEM, certPEM) w' ->
  exists tmpl pub priv w0 w1 now1 w2 now2 w3,
    time_Now w1 = (now1, w2) /\
    time_Now w2 = (now2, w3) /\
    created w0 tmpl tmpl pub priv certPEM w' /\
    x509.NotBefore tmpl = now1 /\
    x509.NotAfter tmpl = time.Add now2 time.Hour /\
    time.Sub (x509.NotAfter tmpl) (x509.NotBefore tmpl)
      = 3600 * time.Second + time.Sub now2 now1 /\
    3600 * time.Second
      <= time.Sub (x509.NotAfter tmpl) (x509.NotBefore tmpl)
      <= 3600 * time.Second + res.
Proof.
  intros H. apply generate_Returned in H.
  destruct H as (serial & w1 & t1 & w2 & t2 & w3 & priv & pub & w4 &
                 _ & E2 & E3 & _ & _ & Hc & _).
  exists (template_of a serial cname t1 t2), pub, priv, w4, w1, t1, w2, t2, w3.
  pose proof (Hclock _ _ _ _ _ E2 E3) as Hgap.
  cbn [x509.NotBefore x509.NotAfter template_of].
  unfold time.Sub, time.Add in *. rewrite Hour_seconds.
  change time.Second with 1000000000.
  repeat split; try assumption; lia.
Qed.

(** C7. The serial number of the template is the value that [rand.Int]
    returned for [rand.Reader] and the limit [1 << 128]; it is at least 0
    and below 2^128. *)
Theorem serial_number_range (Hrand : rand_Int_in_range)
    (a : algorithm) (cname : string) (w : World)
    (keyPEM certPEM : bytes) (w' : World) :
  generate a cname w = Returned (keyPEM, certPEM) w' ->
  exists tmpl pub priv w0 serialNumber w1,
    rand_Int rand_Reader (big.Lsh (big.NewInt 1) 128) w
      = ((serialNumber, None), w1) /\
    created w0 tmpl tmpl pub priv certPEM w' /\
    x509.SerialNumber tmpl = Some serialNumber /\
    0 <= serialNumber < 2 ^ 128.
Proof.
  intros H. apply generate_Returned in H.
  destruct H as (serial & w1 & t1 & w2 & t2 & w3 & priv & pub & w4 &
                 E1 & _ & _ & _ & _ & Hc & _).
  exists (template_of a serial cname t1 t2), pub, priv, w4, serial, w1.
  rewrite two_pow_128.
  split; [exact E1|]. split; [exact Hc|]. split; [reflexivity|].
  apply (Hrand rand_Reader (2 ^ 128) w serial w1); [reflexivity | exact E1].
Qed.

(** C8, amended. In the template of either generator
    [BasicConstraintsValid] is true and [IsCA] is false. *)
Theorem basic_constraints_valid_not_ca (a : algorithm) (cname : string)
    (w : World) (keyPEM certPEM : bytes) (w' : World) :
  generate a cname w = Returned (keyPEM, certPEM) w' ->
  exists tmpl pub priv w0,
    created w0 tmpl tmpl pub priv certPEM w' /\
    x509.BasicConstraintsValid tmpl = true /\
    x509.IsCA tmpl = false.
Proof.
  intros H. apply generate_Returned in H.
  destruct H as (serial & w1 & t1 & w2 & t2 & w3 & priv & pub & w4 &
                 _ & _ & _ & _ & _ & Hc & _).
  exists (template_of a serial cname t1 t2), pub, priv, w4.
  repeat split; assumption || reflexivity.
Qed.

(** C9. The certificate text of either generator is the PEM encoding of a
    block labelled "CERTIFICATE" whose payload is the certificate bytes that
    [x509.CreateCertificate] returned; the key text of [CreateKeyPair] is
    the PEM encoding of a block labelled "RSA PRIVATE KEY" whose payload is
    [x509.MarshalPKCS1PrivateKey] of the generated key, the key that signs
    the certificate. *)
Theorem pem_labels (a : algorithm) (cname : string) (w : World)
    (keyPEM certPEM : bytes) (w' : World) :
  generate a cname w = Returned (keyPEM, certPEM) w' ->
  exists tmpl pub priv w0 certDER,
    x509_CreateCertificate rand_Reader tmpl tmpl pub priv w0
      = ((certDER, None), w') /\
    certPEM = pem_EncodeToMemory
                {| pem.Type_ := "CERTIFICATE"; pem.Headers := [];
                   pem.Bytes := certDER |} /\
    (a = RSA ->
     exists w1 privKey,
       rsa_GenerateKey rand_Reader 2048 w1 = ((privKey, None), w0) /\
       priv = crypto.RSAPrivateKey privKey /\
       pub = crypto.RSAPublicKey (rsa.Public privKey) /\
       keyPEM = pem_EncodeToMemory
                  {| pem.Type_ := "RSA PRIVATE KEY"; pem.Headers := [];
                     pem.Bytes := x509_MarshalPKCS1PrivateKey privKey |}).
Proof.
  intros H. apply generate_Returned in H.
  destruct H as (serial & w1 & t1 & w2 & t2 & w3 & priv & pub & w4 &
                 _ & _ & _ & Hg & Hp & (der & Hc & Hpem) & Hk).
  exists (template_of a serial cname t1 t2), pub, priv, w4, der.
  split; [exact Hc|]. split; [exact Hpem|].
  intros ->. cbn in Hg, Hk.
  destruct Hg as (k & Hg & ->). destruct Hk as (k' & Hk & ->).
  injection Hk as <-. cbn in Hp. injection Hp as <-.
  exists w3, k. repeat split. exact Hg.
Qed.

Lemma CreateKeyPair_key_and_certificate (cname : string) (w : World)
    (keyPEM certPEM : bytes) (w' : World) :
  CreateKeyPair cname w = Returned (keyPEM, certPEM) w' ->
  key_and_certificate cname keyPEM certPEM w'.
Proof.
  intros H. apply (generate_Returned RSA) in H.
  destruct H as (serial & w1 & t1 & w2 & t2 & w3 & priv & pub & w4 &
                 _ & _ & _ & (k & Hg & ->) & Hp & Hc & (k' & Hk & ->)).
  injection Hk as <-. cbn in Hp. injection Hp as <-.
  exists (template_of RSA serial cname t1 t2), k, w3, w4.
  split; [exact Hg|]. split; [exact Hc|]. split; reflexivity.
Qed.

(** C10. [SpecSSLConfig] returns a configuration with [EnableSSL] true,
    [SSLPort] the given port and [TLSPEM] of two entries.  The first is the
    key text, a newline and the certificate text that
    [CreateKeyPair "potato.com"] returned: the "RSA PRIVATE KEY" block of a
    generated key and the "CERTIFICATE" block of the certificate for
    "potato.com" that certifies and is signed with that key.  The second is
    the same for [CreateKeyPair "potato2.com"], called next. *)
Theorem SpecSSLConfig_fields (statusPort proxyPort SSLPort : Z)
    (natsPorts : list Z) (w : World) (c : config.Config) (w' : World) :
  SpecSSLConfig statusPort proxyPort SSLPort natsPorts w = Returned c w' ->
  config.EnableSSL c = true /\
  config.SSLPort c = SSLPort /\
  exists key cert w1 secondKey secondCert,
    CreateKeyPair "potato.com" w = Returned (key, cert) w1 /\
    CreateKeyPair "potato2.com" w1 = Returned (secondKey, secondCert) w' /\
    key_and_certificate "potato.com" key cert w1 /\
    key_and_certificate "potato2.com" secondKey secondCert w' /\
    config.TLSPEM c =
      [(string_of_bytes key ++ newline ++ string_of_bytes cert)%string;
       (string_of_bytes secondKey ++ newline
          ++ string_of_bytes secondCert)%string].
Proof.
  unfold SpecSSLConfig, bind, ret. intros H.
  destruct (CreateKeyPair "potato.com" w) as [[key cert] w1|e w1] eqn:E1;
    [|discriminate].
  destruct (CreateKeyPair "potato2.com" w1) as [[key2 cert2] w2|e w2] eqn:E2;
    [|discriminate].
  injection H as <- <-.
  split; [reflexivity|]. split; [reflexivity|].
  exists key, cert, w1, key2, cert2.
  split; [reflexivity|]. split; [exact E2|].
  split; [exact (CreateKeyPair_key_and_certificate _ _ _ _ _ E1)|].
  split; [exact (CreateKeyPair_key_and_certificate _ _ _ _ _ E2)|].
  reflexivity.
Qed.
End Runs.

(** ** Reading the texts back *)

Section Reading.
Context {L : Library}.
Hypothesis HD : pem_Decode_Encode.
Hypothesis HE : pem_Decode_empty.

Lemma pem_label_CERTIFICATE : pem_label "CERTIFICATE".
Proof. left; reflexivity. Qed.
Lemma pem_label_RSA : pem_label "RSA PRIVATE KEY".
Proof. right; left; reflexivity. Qed.
Lemma pem_label_EC : pem_label "EC PRIVATE KEY".
Proof. right; right; left; reflexivity. Qed.
Lemma pem_label_PARAMETERS : pem_label "EC PARAMETERS".
Proof. right; right; right; left; reflexivity. Qed.

Lemma Encode_length (t : string) (payload : bytes) :
  pem_label t ->
  exists n, List.length (pem_EncodeToMemory (block t payload)) = S n.
Proof.
  intros Ht.
  destruct (pem_EncodeToMemory (block t payload)) as [|x l] eqn:E.
  - pose proof (HD t payload [] Ht) as H.
    rewrite E in H. cbn in H. rewrite HE in H. discriminate.
  - exists (List.length l). reflexivity.
Qed.

Lemma Decode_single (t : string) (payload : bytes) :
  pem_label t ->
  pem_Decode (pem_EncodeToMemory (block t payload))
    = (Some (block t payload), []).
Proof.
  intros Ht. rewrite <- (HD t payload [] Ht). now rewrite app_nil_r.
Qed.

Lemma pem_blocks_single (t : string) (payload : bytes) :
  pem_label t ->
  pem_blocks (pem_EncodeToMemory (block t payload)) = Some [block t payload].
Proof.
  intros Ht. unfold pem_blocks.
  destruct (Encode_length t payload Ht) as [n ->].
  cbn [decode_blocks]. rewrite (Decode_single _ _ Ht).
  destruct n; cbn [decode_blocks]; rewrite HE; reflexivity.
Qed.

Lemma pem_blocks_pair (t1 t2 : string) (p1 p2 : bytes) :
  pem_label t1 -> pem_label t2 ->
  pem_blocks (pem_EncodeToMemory (block t1 p1)
                ++ pem_EncodeToMemory (block t2 p2))
    = Some [block t1 p1; block t2 p2].
Proof.
  intros Ht1 Ht2. unfold pem_blocks. rewrite length_app.
  destruct (Encode_length t1 p1 Ht1) as [n1 ->].
  destruct (Encode_length t2 p2 Ht2) as [n2 E2].
  rewrite E2, Nat.add_succ_r.
  cbn [Nat.add decode_blocks].
  rewrite (HD _ _ _ Ht1), (Decode_single _ _ Ht2), HE.
  reflexivity.
Qed.

(** The certificate loop of [tls.X509KeyPair] on one certificate block. *)
Lemma certBlocks_single (certDER : bytes) :
  let certPEM := pem_EncodeToMemory (block "CERTIFICATE" certDER) in
  certBlocks (S (List.length certPEM)) certPEM [] [] = Some ([certDER], []).
Proof.
  cbv zeta.
  destruct (Encode_length "CERTIFICATE" certDER pem_label_CERTIFICATE)
    as [n ->].
  cbn [certBlocks].
  rewrite (Decode_single _ _ pem_label_CERTIFICATE).
  cbn. rewrite HE. reflexivity.
Qed.

(** The key loop on the key text of [CreateKeyPair]. *)
Lemma keyBlock_RSA (der : bytes) :
  let keyPEM := pem_EncodeToMemory (block "RSA PRIVATE KEY" der) in
  keyBlock (S (List.length keyPEM)) keyPEM []
    = (Some (block "RSA PRIVATE KEY" der), None).
Proof.
  cbv zeta. cbn [keyBlock].
  rewrite (Decode_single _ _ pem_label_RSA). reflexivity.
Qed.

(** The key loop on the key text of [CreateECKeyPair]: the parameters
    block is skipped, the private-key block is taken. *)
Lemma keyBlock_EC (oid der : bytes) :
  let keyPEM := pem_EncodeToMemory (block "EC PARAMETERS" oid)
                  ++ pem_EncodeToMemory (block "EC PRIVATE KEY" der) in
  keyBlock (S (List.length keyPEM)) keyPEM []
    = (Some (block "EC PRIVATE KEY" der), None).
Proof.
  cbv zeta. rewrite length_app.
  destruct (Encode_length "EC PARAMETERS" oid pem_label_PARAMETERS) as [n ->].
  cbn [Nat.add keyBlock].
  rewrite (HD _ _ _ pem_label_PARAMETERS).
  cbn. rewrite (Decode_single _ _ pem_label_EC). reflexivity.
Qed.

Lemma tls_X509KeyPair_pairs (certDER keyPEM : bytes) (blk : pem.Block)
    (priv : crypto.PrivateKey) (c : x509.Certificate) (pub : crypto.PublicKey) :
  keyBlock (S (List.length keyPEM)) keyPEM [] = (Some blk, None) ->
  parsePrivateKey (pem.Bytes blk) = (Some priv, None) ->
  x509_ParseCertificate certDER = (c, None) ->
  x509.PublicKey c = Some pub ->
  keys_match pub priv ->
  tls_X509KeyPair (pem_EncodeToMemory (block "CERTIFICATE" certDER)) keyPEM
    = ({| tls.Certificate_ := [certDER]; tls.PrivateKey := Some priv |}, None).
Proof.
  intros Hk Hp Hc Hpub Hm. unfold tls_X509KeyPair.
  rewrite certBlocks_single, Hk, Hp, Hc, Hpub.
  destruct pub as [p|p|raw], priv as [k|k|raw']; cbn in Hm; try contradiction.
  - rewrite Hm, Z.eqb_refl. reflexivity.
  - destruct Hm as [-> ->]. rewrite !Z.eqb_refl. reflexivity.
Qed.

(** C5. The key text of [CreateECKeyPair], read block by block, is two
    blocks: "EC PARAMETERS", whose payload is what [asn1.Marshal] returned
    for the object identifier, then "EC PRIVATE KEY", whose payload is
    [x509.MarshalECPrivateKey] of the generated key. *)
Theorem ec_key_text_blocks (cname : string) (w : World)
    (keyPEM certPEM : bytes) (w' : World) :
  CreateECKeyPair cname w = Returned (keyPEM, certPEM) w' ->
  exists w0 privKey w1 privBytes,
    ecdsa_GenerateKey elliptic.P256 rand_Reader w0 = ((privKey, None), w1) /\
    x509_MarshalECPrivateKey privKey = (privBytes, None) /\
    pem_blocks keyPEM =
      Some [ {| pem.Type_ := "EC PARAMETERS"; pem.Headers := [];
                pem.Bytes := fst (asn1_Marshal [1; 2; 840; 10045; 4; 3; 2]) |};
             {| pem.Type_ := "EC PRIVATE KEY"; pem.Headers := [];
                pem.Bytes := privBytes |} ].
Proof.
  intros H. apply (generate_Returned EC) in H.
  destruct H as (serial & w1 & t1 & w2 & t2 & w3 & priv & pub & w4 &
                 _ & _ & _ & (k & Hg & ->) & _ & _ &
                 (k' & privBytes & Hk & Hm & ->)).
  injection Hk as <-.
  exists w3, k, w4, privBytes.
  split; [exact Hg|]. split; [exact Hm|].
  apply pem_blocks_pair; [apply pem_label_PARAMETERS | apply pem_label_EC].
Qed.

Hypothesis HC : Parse_CreateCertificate.
Hypothesis H1 : Parse_MarshalPKCS1.
Hypothesis H2 : Parse_MarshalEC.

(** C6. For the key text and the certificate text that a generator
    returns, [tls.X509KeyPair] returns a credential and no error, and the
    assembler of that generator returns the credential. *)
Theorem key_pair_loads (a : algorithm) (cname : string) (w : World)
    (keyPEM certPEM : bytes) (w' : World) :
  generate a cname w = Returned (keyPEM, certPEM) w' ->
  exists tlsCert,
    tls_X509KeyPair certPEM keyPEM = (tlsCert, None) /\
    assemble a cname w = Returned tlsCert w'.
Proof.
  intros H.
  assert (exists tlsCert, tls_X509KeyPair certPEM keyPEM = (tlsCert, None))
    as [tlsCert Ht].
  { apply generate_Returned in H.
    destruct H as (serial & w1 & t1 & w2 & t2 & w3 & priv & pub & w4 &
                   _ & _ & _ & Hg & Hp & (der & Hc & ->) & Hk).
    destruct (HC _ _ _ _ _ _ _ _ Hc) as (c & Hparse & Hpub).
    destruct a; cbn in Hg, Hk.
    - destruct Hg as (k & Hg & ->). destruct Hk as (k' & Hk & ->).
      injection Hk as <-. cbn in Hp. injection Hp as <-.
      destruct (H1 _ _ _ _ _ Hg) as (kp & Hkp & Hsame).
      eexists.
      eapply tls_X509KeyPair_pairs with (priv := crypto.RSAPrivateKey kp);
        [apply keyBlock_RSA | | exact Hparse | exact Hpub |].
      + unfold parsePrivateKey. cbn [pem.Bytes block]. rewrite Hkp. reflexivity.
      + cbn. now rewrite Hsame.
    - destruct Hg as (k & Hg & ->).
      destruct Hk as (k' & privBytes & Hk & Hm & ->).
      injection Hk as <-. cbn in Hp. injection Hp as <-.
      destruct (H2 _ _ _ _ _ _ Hg Hm) as (N1 & N8 & kp & Hkp & Hsame).
      eexists.
      eapply tls_X509KeyPair_pairs with (priv := crypto.ECDSAPrivateKey kp);
        [apply keyBlock_EC | | exact Hparse | exact Hpub |].
      + unfold parsePrivateKey. cbn [pem.Bytes block].
        destruct (x509_ParsePKCS1PrivateKey privBytes) as [r1 [e1|]];
          [|now contradiction N1].
        destruct (x509_ParsePKCS8PrivateKey privBytes) as [r8 [e8|]];
          [|now contradiction N8].
        rewrite Hkp. reflexivity.
      + cbn. now rewrite Hsame. }
  exists tlsCert. split; [exact Ht|].
  destruct a; cbn [generate assemble] in *;
    unfold CreateCert, CreateECCert, bind, Expect_ToNot_HaveOccurred, ret;
    rewrite H, Ht; reflexivity.
Qed.
End Reading.

(** ** The small library meets the assumptions *)

Module MockFacts.
Import Mock.

Lemma dec_pos_enc (p : positive) (rest : bytes) :
  dec_pos (enc_pos p ++ rest) = Some (p, rest).
Proof. induction p as [q IH|q IH|]; cbn; try rewrite IH; reflexivity. Qed.

Lemma dec_Z_enc (z : Z) (rest : bytes) :
  dec_Z (enc_Z z ++ rest) = Some (z, rest).
Proof. destruct z; cbn; try rewrite dec_pos_enc; reflexivity. Qed.

Lemma dec_Z_enc_end (z : Z) : dec_Z (enc_Z z) = Some (z, []).
Proof. rewrite <- (app_nil_r (enc_Z z)). apply dec_Z_enc. Qed.

Lemma dec_bytes_enc (l rest : bytes) (fuel : nat) :
  (List.length (enc_bytes l ++ rest) <= fuel)%nat ->
  dec_bytes fuel (enc_bytes l ++ rest) = Some (l, rest).
Proof.
  revert fuel. induction l as [|b l IH]; intros fuel Hf; cbn in Hf.
  - destruct fuel; [lia | reflexivity].
  - destruct fuel; [lia|]. cbn. rewrite IH by lia. reflexivity.
Qed.

Lemma dec_bytes_enc_end (l : bytes) :
  dec_bytes (List.length (enc_bytes l)) (enc_bytes l) = Some (l, []).
Proof.
  rewrite <- (app_nil_r (enc_bytes l)) at 2.
  apply dec_bytes_enc. rewrite app_nil_r. lia.
Qed.

Lemma dec_curve_enc (c : elliptic.Curve) : dec_curve (enc_curve c) = Some c.
Proof. destruct c; reflexivity. Qed.

Lemma dec_bool_enc (b : bool) : dec_bool (enc_bool b) = Some b.
Proof. destruct b; reflexivity. Qed.

Lemma dec_pub_enc (k : crypto.PublicKey) (rest : bytes) :
  dec_pub (enc_pub k ++ rest) = Some (k, rest).
Proof.
  destruct k as [[n e]|[c x y]|raw]; cbn.
  - rewrite <- app_assoc, !dec_Z_enc. reflexivity.
  - rewrite dec_curve_enc, <- app_assoc, !dec_Z_enc. reflexivity.
  - rewrite dec_bytes_enc by lia. reflexivity.
Qed.

(** The mock parser reads back what the mock signer wrote. *)
Lemma ParseCertificate_Create (r : unit) (template parent : x509.Certificate)
    (pub : crypto.PublicKey) (priv : crypto.PrivateKey) (w w' : world)
    (der : bytes) :
  Create r template parent pub priv w = ((der, None), w') ->
  exists c,
    ParseCertificate der = (c, None) /\
    x509.PublicKey c = Some pub /\
    x509.SerialNumber c = x509.SerialNumber template /\
    x509.NotBefore c = x509.NotBefore template /\
    x509.NotAfter c = x509.NotAfter template /\
    x509.BasicConstraintsValid c = x509.BasicConstraintsValid template /\
    x509.IsCA c = x509.IsCA template.
Proof.
  unfold Create. destruct (x509.SerialNumber template) as [s|] eqn:Es;
    [|discriminate].
  intros H. injection H as <- <-.
  unfold ParseCertificate.
  rewrite dec_pub_enc, !dec_Z_enc, !dec_bool_enc, dec_bytes_enc_end.
  eexists. split; [reflexivity|]. cbn. repeat split.
Qed.

Section Laws.
Variables (gap : Z) (oid_fails : bool).

Lemma mock_rand_Int_in_range : rand_Int_in_range (L := lib gap oid_fails).
Proof.
  intros r max w n w' Hmax H. cbn in H. unfold Int in H.
  injection H as <- _. apply Z.mod_pos_bound. exact Hmax.
Qed.

Lemma mock_clock_within : 0 <= gap -> clock_within (L := lib gap oid_fails) gap.
Proof.
  intros Hgap w t1 w1 t2 w2 E1 E2. cbn in E1, E2. unfold Now in *.
  injection E1 as <- <-. injection E2 as <- _. cbn. unfold time.Sub. lia.
Qed.

Lemma mock_pem_Decode_Encode : pem_Decode_Encode (L := lib gap oid_fails).
Proof.
  intros t payload rest _. cbn. unfold Decode, Encode. cbn [pem.Type_ pem.Bytes block].
  rewrite <- app_assoc.
  rewrite dec_bytes_enc by lia.
  rewrite dec_bytes_enc by lia.
  unfold string_of_bytes.
  change (map byte_of_ascii (list_ascii_of_string t))
    with (list_byte_of_string t).
  rewrite string_of_list_byte_of_string. reflexivity.
Qed.

Lemma mock_pem_Decode_empty : pem_Decode_empty (L := lib gap oid_fails).
Proof. reflexivity. Qed.

Lemma mock_Parse_CreateCertificate : Parse_CreateCertificate (L := lib gap oid_fails).
Proof.
  intros r template parent pub priv w der w' H. cbn in *.
  destruct (ParseCertificate_Create _ _ _ _ _ _ _ _ H) as (c & Hc & Hp & _).
  exists c. split; assumption.
Qed.

Lemma mock_Parse_MarshalPKCS1 : Parse_MarshalPKCS1 (L := lib gap oid_fails).
Proof.
  intros r bits w k w' _. exists k. split; [|reflexivity].
  cbn. destruct k as [[n e] d]. unfold MarshalPKCS1, ParsePKCS1. cbn.
  rewrite !dec_Z_enc, dec_Z_enc_end. reflexivity.
Qed.

Lemma mock_Parse_MarshalEC : Parse_MarshalEC (L := lib gap oid_fails).
Proof.
  intros c r w k w' der _ H. cbn in *. unfold MarshalEC in H.
  injection H as <-.
  split; [cbn; discriminate|]. split; [cbn; discriminate|].
  exists k. split; [|reflexivity].
  destruct k as [[cv x y] d]. unfold ParseEC. cbn.
  rewrite dec_curve_enc, !dec_Z_enc, dec_Z_enc_end. reflexivity.
Qed.
End Laws.

(** A certificate text of the mock library determines the flags of the
    template it was created from. *)
Lemma created_reads_back (gap : Z) (oid_fails : bool) (w1 : world)
    (template parent : x509.Certificate) (pub : crypto.PublicKey)
    (priv : crypto.PrivateKey) (certPEM : bytes) (w' : world) :
  created (L := lib gap oid_fails) w1 template parent pub priv certPEM w' ->
  exists blk c,
    Decode certPEM = (Some blk, []) /\
    ParseCertificate (pem.Bytes blk) = (c, None) /\
    x509.BasicConstraintsValid c = x509.BasicConstraintsValid template /\
    x509.IsCA c = x509.IsCA template.
Proof.
  intros (der & Hc & ->). cbn in Hc.
  destruct (ParseCertificate_Create _ _ _ _ _ _ _ _ Hc)
    as (c & Hp & _ & _ & _ & _ & Hb & Hi).
  exists (block "CERTIFICATE" der), c.
  split; [|repeat split; assumption].
  pose proof (mock_pem_Decode_Encode gap oid_fails "CERTIFICATE" der []
                (or_introl eq_refl)) as Hd.
  rewrite app_nil_r in Hd. exact Hd.
Qed.
End MockFacts.

(** ** The claims on runs of the small library *)

(** Splits on the outcome of the run in the goal: the returned case keeps
    the equation [E] and the values, the aborted case is excluded by
    evaluation. *)
Ltac on_run E :=
  match goal with
  | |- exists k c w', ?g = Returned (k, c) w' /\ _ =>
      let keyPEM := fresh "keyPEM" in
      let certPEM := fresh "certPEM" in
      let w' := fresh "w'" in
      let e := fresh "e" in
      destruct g as [[keyPEM certPEM] w'|e w'] eqn:E;
      [ exists keyPEM, certPEM, w'; split; [reflexivity|]
      | exfalso; vm_compute in E; discriminate E ]
  end.

Lemma subject_common_name_witness :
  exists keyPEM certPEM w',
    generate (L := Mock.std) EC EmptyString Mock.w0
      = Returned (keyPEM, certPEM) w' /\
    exists tmpl pub priv w1,
      created (L := Mock.std) w1 tmpl tmpl pub priv certPEM w' /\
      pkix.CommonName (x509.Subject tmpl) = EmptyString /\
      pkix.Organization (x509.Subject tmpl) = ["xyz, Inc."] /\
      subject_written tmpl tmpl = [[organization_attribute]] /\
      (EmptyString = EmptyString ->
       subject_written tmpl tmpl = [[organization_attribute]] /\
       pkix.has_attribute pkix.oidCommonName (subject_written tmpl tmpl)
         = false).
Proof.
  on_run E.
  exact (subject_common_name (L := Mock.std) EC EmptyString Mock.w0 _ _ _ E).
Defined.

Lemma self_signed_witness :
  exists keyPEM certPEM w',
    generate (L := Mock.std) RSA "potato.com" Mock.w0
      = Returned (keyPEM, certPEM) w' /\
    exists tmpl parent pub priv w0 w1,
      generated (L := Mock.std) RSA w0 priv w1 /\
      public_of priv = Some pub /\
      created (L := Mock.std) w1 tmpl parent pub priv certPEM w' /\
      parent = tmpl /\
      issuer_written tmpl parent = subject_written tmpl parent /\
      key_text (L := Mock.std) RSA priv keyPEM.
Proof.
  on_run E.
  exact (self_signed (L := Mock.std) RSA "potato.com" Mock.w0 _ _ _ E).
Defined.

Lemma validity_window_witness :
  clock_within (L := Mock.std) 40 /\
  exists keyPEM certPEM w',
    generate (L := Mock.std) EC "potato.com" Mock.w0
      = Returned (keyPEM, certPEM) w' /\
    exists tmpl pub priv w0 w1 now1 w2 now2 w3,
      time_Now (Library := Mock.std) w1 = (now1, w2) /\
      time_Now (Library := Mock.std) w2 = (now2, w3) /\
      created (L := Mock.std) w0 tmpl tmpl pub priv certPEM w' /\
      x509.NotBefore tmpl = now1 /\
      x509.NotAfter tmpl = time.Add now2 time.Hour /\
      time.Sub (x509.NotAfter tmpl) (x509.NotBefore tmpl)
        = 3600 * time.Second + time.Sub now2 now1 /\
      3600 * time.Second
        <= time.Sub (x509.NotAfter tmpl) (x509.NotBefore tmpl)
        <= 3600 * time.Second + 40.
Proof.
  assert (Hclock : clock_within (L := Mock.std) 40)
    by (apply (MockFacts.mock_clock_within 40 false); lia).
  split; [exact Hclock|].
  on_run E.
  exact (validity_window (L := Mock.std) 40 Hclock EC "potato.com" Mock.w0
           _ _ _ E).
Defined.

Lemma serial_number_range_witness :
  rand_Int_in_range (L := Mock.std) /\
  exists keyPEM certPEM w',
    generate (L := Mock.std) RSA "potato.com" Mock.w0
      = Returned (keyPEM, certPEM) w' /\
    exists tmpl pub priv w0 serialNumber w1,
      rand_Int (Library := Mock.std) rand_Reader (big.Lsh (big.NewInt 1) 128)
          Mock.w0
        = ((serialNumber, None), w1) /\
      created (L := Mock.std) w0 tmpl tmpl pub priv certPEM w' /\
      x509.SerialNumber tmpl = Some serialNumber /\
      0 <= serialNumber < 2 ^ 128.
Proof.
  split; [exact (MockFacts.mock_rand_Int_in_range 40 false)|].
  on_run E.
  exact (serial_number_range (L := Mock.std)
           (MockFacts.mock_rand_Int_in_range 40 false)
           RSA "potato.com" Mock.w0 _ _ _ E).
Defined.

Lemma basic_constraints_valid_not_ca_witness :
  exists keyPEM certPEM w',
    generate (L := Mock.std) EC "potato.com" Mock.w0
      = Returned (keyPEM, certPEM) w' /\
    exists tmpl pub priv w0,
      created (L := Mock.std) w0 tmpl tmpl pub priv certPEM w' /\
      x509.BasicConstraintsValid tmpl = true /\
      x509.IsCA tmpl = false.
Proof.
  on_run E.
  exact (basic_constraints_valid_not_ca (L := Mock.std) EC "potato.com"
           Mock.w0 _ _ _ E).
Defined.

(** C8, as stated, fails: the certificate that [CreateKeyPair "potato.com"]
    returns on the small library was created from no template whose [IsCA]
    is true. *)
Lemma ca_flag_counterexample :
  exists keyPEM certPEM w',
    generate (L := Mock.std) RSA "potato.com" Mock.w0
      = Returned (keyPEM, certPEM) w' /\
    ~ exists tmpl pub priv w0,
        created (L := Mock.std) w0 tmpl tmpl pub priv certPEM w' /\
        x509.IsCA tmpl = true.
Proof.
  on_run E.
  intros (tmpl & pub & priv & w0 & Hc & Hca).
  apply MockFacts.created_reads_back in Hc.
  destruct Hc as (blk & c & Hd & Hp & _ & Hi).
  vm_compute in E. injection E as <- <- <-.
  vm_compute in Hd. injection Hd as <-.
  vm_compute in Hp. injection Hp as <-.
  cbn in Hi. rewrite Hca in Hi. discriminate Hi.
Qed.

Lemma pem_labels_witness :
  exists keyPEM certPEM w',
    generate (L := Mock.std) RSA "potato.com" Mock.w0
      = Returned (keyPEM, certPEM) w' /\
    exists tmpl pub priv w0 certDER,
      x509_CreateCertificate (Library := Mock.std) rand_Reader tmpl tmpl
        pub priv w0 = ((certDER, None), w') /\
      certPEM = pem_EncodeToMemory (Library := Mock.std)
                  {| pem.Type_ := "CERTIFICATE"; pem.Headers := [];
                     pem.Bytes := certDER |} /\
      (RSA = RSA ->
       exists w1 privKey,
         rsa_GenerateKey (Library := Mock.std) rand_Reader 2048 w1
           = ((privKey, None), w0) /\
         priv = crypto.RSAPrivateKey privKey /\
         pub = crypto.RSAPublicKey (rsa.Public privKey) /\
         keyPEM = pem_EncodeToMemory (Library := Mock.std)
                    {| pem.Type_ := "RSA PRIVATE KEY"; pem.Headers := [];
                       pem.Bytes :=
                         x509_MarshalPKCS1PrivateKey (Library := Mock.std)
                           privKey |}).
Proof.
  on_run E.
  exact (pem_labels (L := Mock.std) RSA "potato.com" Mock.w0 _ _ _ E).
Defined.

Lemma SpecSSLConfig_fields_witness :
  exists c w',
    SpecSSLConfig (L := Mock.std) 8082 8081 4443 [4222; 4223] Mock.w0
      = Returned c w' /\
    config.EnableSSL c = true /\
    config.SSLPort c = 4443 /\
    exists key cert w1 secondKey secondCert,
      CreateKeyPair (L := Mock.std) "potato.com" Mock.w0
        = Returned (key, cert) w1 /\
      CreateKeyPair (L := Mock.std) "potato2.com" w1
        = Returned (secondKey, secondCert) w' /\
      key_and_certificate (L := Mock.std) "potato.com" key cert w1 /\
      key_and_certificate (L := Mock.std) "potato2.com" secondKey secondCert
        w' /\
      config.TLSPEM c =
        [(string_of_bytes key ++ newline ++ string_of_bytes cert)%string;
         (string_of_bytes secondKey ++ newline
            ++ string_of_bytes secondCert)%string].
Proof.
  destruct (SpecSSLConfig (L := Mock.std) 8082 8081 4443 [4222; 4223] Mock.w0)
    as [c w'|e w'] eqn:E.
  - exists c, w'. split; [reflexivity|].
    exact (SpecSSLConfig_fields (L := Mock.std) 8082 8081 4443 [4222; 4223]
             Mock.w0 c w' E).
  - exfalso. vm_compute in E. discriminate E.
Defined.

Lemma ec_key_text_blocks_witness :
  pem_Decode_Encode (L := Mock.std) /\
  pem_Decode_empty (L := Mock.std) /\
  exists keyPEM certPEM w',
    CreateECKeyPair (L := Mock.std) "potato.com" Mock.w0
      = Returned (keyPEM, certPEM) w' /\
    exists w0 privKey w1 privBytes,
      ecdsa_GenerateKey (Library := Mock.std) elliptic.P256 rand_Reader w0
        = ((privKey, None), w1) /\
      x509_MarshalECPrivateKey (Library := Mock.std) privKey
        = (privBytes, None) /\
      pem_blocks (L := Mock.std) keyPEM =
        Some [ {| pem.Type_ := "EC PARAMETERS"; pem.Headers := [];
                  pem.Bytes := fst (asn1_Marshal (Library := Mock.std)
                                      [1; 2; 840; 10045; 4; 3; 2]) |};
               {| pem.Type_ := "EC PRIVATE KEY"; pem.Headers := [];
                  pem.Bytes := privBytes |} ].
Proof.
  split; [exact (MockFacts.mock_pem_Decode_Encode 40 false)|].
  split; [exact (MockFacts.mock_pem_Decode_empty 40 false)|].
  on_run E.
  exact (ec_key_text_blocks (L := Mock.std)
           (MockFacts.mock_pem_Decode_Encode 40 false)
           (MockFacts.mock_pem_Decode_empty 40 false)
           "potato.com" Mock.w0 _ _ _ E).
Defined.

Lemma key_pair_loads_witness :
  pem_Decode_Encode (L := Mock.std) /\
  pem_Decode_empty (L := Mock.std) /\
  Parse_CreateCertificate (L := Mock.std) /\
  Parse_MarshalPKCS1 (L := Mock.std) /\
  Parse_MarshalEC (L := Mock.std) /\
  exists keyPEM certPEM w',
    generate (L := Mock.std) EC EmptyString Mock.w0
      = Returned (keyPEM, certPEM) w' /\
    exists tlsCert,
      tls_X509KeyPair (L := Mock.std) certPEM keyPEM = (tlsCert, None) /\
      assemble (L := Mock.std) EC EmptyString Mock.w0 = Returned tlsCert w'.
Proof.
  split; [exact (MockFacts.mock_pem_Decode_Encode 40 false)|].
  split; [exact (MockFacts.mock_pem_Decode_empty 40 false)|].
  split; [exact (MockFacts.mock_Parse_CreateCertificate 40 false)|].
  split; [exact (MockFacts.mock_Parse_MarshalPKCS1 40 false)|].
  split; [exact (MockFacts.mock_Parse_MarshalEC 40 false)|].
  on_run E.
  exact (key_pair_loads (L := Mock.std)
           (MockFacts.mock_pem_Decode_Encode 40 false)
           (MockFacts.mock_pem_Decode_empty 40 false)
           (MockFacts.mock_Parse_CreateCertificate 40 false)
           (MockFacts.mock_Parse_MarshalPKCS1 40 false)
           (MockFacts.mock_Parse_MarshalEC 40 false)
           EC EmptyString Mock.w0 _ _ _ E).
Defined.



(** * Further properties of the helpers *)

Section Aborts.
Context {L : Library}.

(** A generator aborts exactly when one of its checked library calls reports
    an error: [rand.Int], the key generation, [x509.CreateCertificate] or,
    for the EC generator, [x509.MarshalECPrivateKey].  The error is that
    call's error and the world is the one that call left, so no later call
    is made. *)
Theorem generate_Aborted (a : algorithm) (cname : string) (w : World)
    (e : error) (w' : World) :
  generate a cname w = Aborted e w' <->
  (exists s, rand_Int rand_Reader (2 ^ 128) w = ((s, Some e), w')) \/
  (exists s w1 now1 w2 now2 w3,
     rand_Int rand_Reader (2 ^ 128) w = ((s, None), w1) /\
     time_Now w1 = (now1, w2) /\
     time_Now w2 = (now2, w3) /\
     (key_failed a w3 e w' \/
      exists priv pub w4,
        generated a w3 priv w4 /\
        public_of priv = Some pub /\
        ((exists der,
            x509_CreateCertificate rand_Reader
              (template_of a s cname now1 now2)
              (template_of a s cname now1 now2) pub priv w4
              = ((der, Some e), w')) \/
         (exists der k b,
            x509_CreateCertificate rand_Reader
              (template_of a s cname now1 now2)
              (template_of a s cname now1 now2) pub priv w4
              = ((der, None), w') /\
            priv = crypto.ECDSAPrivateKey k /\
            x509_MarshalECPrivateKey k = (b, Some e))))).
Proof.
  destruct a; cbn [generate generated key_failed].
  - unfold CreateKeyPair, bind, call, Expect_ToNot_HaveOccurred, ret.
    rewrite two_pow_128, subject_of_source.
    fold (subject_of EmptyString).
    split.
    + intros H.
      destruct (rand_Int rand_Reader (2 ^ 128) w) as [[s [e1|]] w1] eqn:E1.
      { injection H as <- <-. left. exists s. reflexivity. }
      right.
      destruct (time_Now w1) as [t1 w2] eqn:E2.
      destruct (time_Now w2) as [t2 w3] eqn:E3.
      exists s, w1, t1, w2, t2, w3.
      refine (conj eq_refl (conj E2 (conj E3 _))).
      destruct (rsa_GenerateKey rand_Reader 2048 w3) as [[k [e2|]] w4] eqn:E4.
      { injection H as <- <-. left. exists k. first [exact E4 | reflexivity]. }
      right.
      exists (crypto.RSAPrivateKey k), (crypto.RSAPublicKey (rsa.Public k)), w4.
      split; [exists k; split; [first [exact E4 | reflexivity] | reflexivity]|].
      split; [reflexivity|].
      left.
      match type of H with
      | context [x509_CreateCertificate ?r ?t ?p ?pu ?pr ?w] =>
          destruct (x509_CreateCertificate r t p pu pr w)
            as [[der [e3|]] w5] eqn:E5; [|discriminate]
      end.
      injection H as <- <-. exists der.
      unfold template_of, signature_of, time.Add in *.
      rewrite Hour_seconds in E5. exact E5.
    + intros [(s & E1)|(s & w1 & t1 & w2 & t2 & w3 & E1 & E2 & E3 & H)].
      { rewrite E1. reflexivity. }
      rewrite E1, E2, E3.
      destruct H as [(k & E4)|(priv & pub & w4 & (k & E4 & ->) & Hp & H)].
      { rewrite E4. reflexivity. }
      rewrite E4. cbn in Hp. injection Hp as <-.
      unfold template_of, signature_of, time.Add in *.
      rewrite Hour_seconds.
      destruct H as [(der & E5)|(der & k' & b & _ & Hk & _)];
        [|discriminate Hk].
      rewrite E5. reflexivity.
  - unfold CreateECKeyPair, bind, call, Expect_ToNot_HaveOccurred, ret.
    rewrite two_pow_128, subject_of_source.
    fold (subject_of EmptyString). fold oidSignatureECDSAWithSHA256.
    split.
    + intros H.
      destruct (rand_Int rand_Reader (2 ^ 128) w) as [[s [e1|]] w1] eqn:E1.
      { injection H as <- <-. left. exists s. reflexivity. }
      right.
      destruct (time_Now w1) as [t1 w2] eqn:E2.
      destruct (time_Now w2) as [t2 w3] eqn:E3.
      exists s, w1, t1, w2, t2, w3.
      refine (conj eq_refl (conj E2 (conj E3 _))).
      destruct (ecdsa_GenerateKey elliptic.P256 rand_Reader w3)
        as [[k [e2|]] w4] eqn:E4.
      { injection H as <- <-. left. exists k. first [exact E4 | reflexivity]. }
      right.
      exists (crypto.ECDSAPrivateKey k),
        (crypto.ECDSAPublicKey (ecdsa.Public k)), w4.
      split; [exists k; split; [first [exact E4 | reflexivity] | reflexivity]|].
      split; [reflexivity|].
      match type of H with
      | context [x509_CreateCertificate ?r ?t ?p ?pu ?pr ?w] =>
          destruct (x509_CreateCertificate r t p pu pr w)
            as [[der [e3|]] w5] eqn:E5
      end;
        unfold template_of, signature_of, time.Add in *;
        rewrite Hour_seconds in E5.
      { injection H as <- <-. left. exists der. exact E5. }
      right.
      destruct (x509_MarshalECPrivateKey k) as [b [e4|]] eqn:E6.
      * injection H as <- <-. exists der, k, b.
        split; [exact E5|]. split; [reflexivity | exact E6].
      * destruct (asn1_Marshal oidSignatureECDSAWithSHA256). discriminate H.
    + intros [(s & E1)|(s & w1 & t1 & w2 & t2 & w3 & E1 & E2 & E3 & H)].
      { rewrite E1. reflexivity. }
      rewrite E1, E2, E3.
      destruct H as [(k & E4)|(priv & pub & w4 & (k & E4 & ->) & Hp & H)].
      { rewrite E4. reflexivity. }
      rewrite E4. cbn in Hp. injection Hp as <-.
      unfold template_of, signature_of, time.Add in *.
      rewrite Hour_seconds.
      destruct H as [(der & E5)|(der & k' & b & E5 & Hk & E6)].
      { rewrite E5. reflexivity. }
      injection Hk as <-. rewrite E5, E6. reflexivity.
Qed.
End Aborts.

(** ** Configurations *)

Lemma fold_left_snoc_map {A B : Type} (f : A -> B) (l : list A) (acc : list B) :
  fold_left (fun acc x => acc ++ [f x]) l acc = acc ++ map f l.
Proof.
  revert acc. induction l as [|x l IH]; intros acc; cbn.
  - now rewrite app_nil_r.
  - rewrite IH, <- app_assoc. reflexivity.
Qed.

Lemma bytes_of_string_app (a b : string) :
  bytes_of_string (a ++ b)%string = bytes_of_string a ++ bytes_of_string b.
Proof.
  unfold bytes_of_string, list_byte_of_string.
  induction a as [|x a IH]; cbn; [reflexivity|].
  now rewrite IH.
Qed.

Lemma bytes_of_string_of_bytes (b : bytes) :
  bytes_of_string (string_of_bytes b) = b.
Proof. apply list_byte_of_string_of_list_byte. Qed.

Section Configurations.
Context {L : Library}.

(** The configuration of [SpecConfig] has one NATS entry per given port, in
    the order given, each for host "localhost" with user and password
    "nats"; the ports read back from the entries are the ports given, and no
    port gives no entry. *)
Theorem SpecConfig_Nats (statusPort proxyPort : Z) (natsPorts : list Z) :
  config.Nats (SpecConfig statusPort proxyPort natsPorts)
    = map nats_entry natsPorts /\
  map config.Nats_Port (config.Nats (SpecConfig statusPort proxyPort natsPorts))
    = natsPorts /\
  List.length (config.Nats (SpecConfig statusPort proxyPort natsPorts))
    = List.length natsPorts.
Proof.
  assert (H : config.Nats (SpecConfig statusPort proxyPort natsPorts)
              = map nats_entry natsPorts).
  { unfold SpecConfig, generateConfig. cbn [config.Nats].
    apply (fold_left_snoc_map nats_entry natsPorts []). }
  rewrite H. split; [reflexivity|]. split.
  - rewrite map_map. cbn. apply map_id.
  - apply length_map.
Qed.

Lemma SpecSSLConfig_Returned (statusPort proxyPort SSLPort : Z)
    (natsPorts : list Z) (w : World) (c : config.Config) (w' : World) :
  SpecSSLConfig statusPort proxyPort SSLPort natsPorts w = Returned c w' <->
  exists key cert w1 secondKey secondCert,
    CreateKeyPair "potato.com" w = Returned (key, cert) w1 /\
    CreateKeyPair "potato2.com" w1 = Returned (secondKey, secondCert) w' /\
    c = with_ssl
          [Sprintf_s_nl_s (string_of_bytes key) (string_of_bytes cert);
           Sprintf_s_nl_s (string_of_bytes secondKey)
             (string_of_bytes secondCert)]
          SSLPort
          "TLS_ECDHE_RSA_WITH_AES_128_GCM_SHA256:TLS_ECDHE_RSA_WITH_AES_256_GCM_SHA384"
          (generateConfig statusPort proxyPort natsPorts).
Proof.
  unfold SpecSSLConfig, bind, ret. split.
  - intros H.
    destruct (CreateKeyPair "potato.com" w) as [[key cert] w1|e w1] eqn:E1;
      [|discriminate].
    destruct (CreateKeyPair "potato2.com" w1) as [[key2 cert2] w2|e w2] eqn:E2;
      [|discriminate].
    injection H as <- <-.
    exists key, cert, w1, key2, cert2.
    split; [reflexivity|]. split; [exact E2 | reflexivity].
  - intros (key & cert & w1 & key2 & cert2 & E1 & E2 & ->).
    rewrite E1, E2. reflexivity.
Qed.

(** The configuration of [SpecSSLConfig] agrees with that of [SpecConfig]
    for the same ports on every field other than [EnableSSL], [TLSPEM],
    [SSLPort] and [CipherString], and its [CipherString] is the fixed pair
    of ECDHE-RSA AES-GCM suites, whatever the default configuration has. *)
Theorem SpecSSLConfig_extends_SpecConfig (statusPort proxyPort SSLPort : Z)
    (natsPorts : list Z) (w : World) (c : config.Config) (w' : World) :
  SpecSSLConfig statusPort proxyPort SSLPort natsPorts w = Returned c w' ->
  same_outside_ssl c (SpecConfig statusPort proxyPort natsPorts) /\
  config.CipherString c =
    "TLS_ECDHE_RSA_WITH_AES_128_GCM_SHA256:TLS_ECDHE_RSA_WITH_AES_256_GCM_SHA384".
Proof.
  intros H. apply SpecSSLConfig_Returned in H.
  destruct H as (key & cert & w1 & key2 & cert2 & _ & _ & ->).
  unfold same_outside_ssl, SpecConfig. repeat split.
Qed.

(** [SpecSSLConfig] aborts exactly when its first call of [CreateKeyPair]
    aborts, or the first returns and the second aborts; the error and the
    world are those of the aborting call. *)
Theorem SpecSSLConfig_Aborted (statusPort proxyPort SSLPort : Z)
    (natsPorts : list Z) (w : World) (e : error) (w' : World) :
  SpecSSLConfig statusPort proxyPort SSLPort natsPorts w = Aborted e w' <->
  CreateKeyPair "potato.com" w = Aborted e w' \/
  exists key cert w1,
    CreateKeyPair "potato.com" w = Returned (key, cert) w1 /\
    CreateKeyPair "potato2.com" w1 = Aborted e w'.
Proof.
  unfold SpecSSLConfig, bind, ret. split.
  - intros H.
    destruct (CreateKeyPair "potato.com" w) as [[key cert] w1|e1 w1] eqn:E1.
    + right. exists key, cert, w1. split; [reflexivity|].
      destruct (CreateKeyPair "potato2.com" w1) as [[key2 cert2] w2|e2 w2];
        [discriminate | injection H as <- <-; reflexivity].
    + left. injection H as <- <-. reflexivity.
  - intros [E1|(key & cert & w1 & E1 & E2)].
    + rewrite E1. reflexivity.
    + rewrite E1, E2. reflexivity.
Qed.

(** Each entry of [TLSPEM], as bytes, is the key text, one line feed and the
    certificate text of its pair, unchanged; with a [pem.Decode] that reads
    back what [pem.EncodeToMemory] wrote, the first block of each entry is
    the "RSA PRIVATE KEY" block and what follows it is the line feed and
    the certificate text. *)
Theorem TLSPEM_entries (HD : pem_Decode_Encode)
    (statusPort proxyPort SSLPort : Z)
    (natsPorts : list Z) (w : World) (c : config.Config) (w' : World) :
  SpecSSLConfig statusPort proxyPort SSLPort natsPorts w = Returned c w' ->
  exists key cert w1 secondKey secondCert der secondDer,
    CreateKeyPair "potato.com" w = Returned (key, cert) w1 /\
    CreateKeyPair "potato2.com" w1 = Returned (secondKey, secondCert) w' /\
    map bytes_of_string (config.TLSPEM c)
      = [key ++ x0a :: cert; secondKey ++ x0a :: secondCert] /\
    pem_Decode (key ++ x0a :: cert)
      = (Some {| pem.Type_ := "RSA PRIVATE KEY"; pem.Headers := [];
                 pem.Bytes := der |}, x0a :: cert) /\
    pem_Decode (secondKey ++ x0a :: secondCert)
      = (Some {| pem.Type_ := "RSA PRIVATE KEY"; pem.Headers := [];
                 pem.Bytes := secondDer |}, x0a :: secondCert).
Proof.
  intros H. apply SpecSSLConfig_Returned in H.
  destruct H as (key & cert & w1 & key2 & cert2 & E1 & E2 & ->).
  pose proof (proj1 (generate_Returned RSA _ _ _ _ _) E1)
    as (_ & _ & _ & _ & _ & _ & _ & _ & _ & _ & _ & _ & _ & _ & _ &
        (k1 & _ & Hk1)).
  pose proof (proj1 (generate_Returned RSA _ _ _ _ _) E2)
    as (_ & _ & _ & _ & _ & _ & _ & _ & _ & _ & _ & _ & _ & _ & _ &
        (k2 & _ & Hk2)).
  exists key, cert, w1, key2, cert2,
    (x509_MarshalPKCS1PrivateKey k1), (x509_MarshalPKCS1PrivateKey k2).
  split; [exact E1|]. split; [exact E2|]. split.
  - cbn [config.TLSPEM with_ssl map]. unfold Sprintf_s_nl_s.
    rewrite !bytes_of_string_app, !bytes_of_string_of_bytes. reflexivity.
  - split.
    + rewrite Hk1. apply (HD "RSA PRIVATE KEY" _ (x0a :: cert)).
      right; left; reflexivity.
    + rewrite Hk2. apply (HD "RSA PRIVATE KEY" _ (x0a :: cert2)).
      right; left; reflexivity.
Qed.
End Configurations.

(** ** Templates and credentials *)

Section Templates.
Context {L : Library}.

(** With a clock that does not go backwards between two readings, the
    template of either generator has [NotBefore] strictly before
    [NotAfter]. *)
Theorem validity_ordered (Hclock : clock_monotone)
    (a : algorithm) (cname : string) (w : World)
    (keyPEM certPEM : bytes) (w' : World) :
  generate a cname w = Returned (keyPEM, certPEM) w' ->
  exists tmpl pub priv w0,
    created w0 tmpl tmpl pub priv certPEM w' /\
    x509.NotBefore tmpl < x509.NotAfter tmpl.
Proof.
  intros H. apply generate_Returned in H.
  destruct H as (serial & w1 & t1 & w2 & t2 & w3 & priv & pub & w4 &
                 _ & E2 & E3 & _ & _ & Hc & _).
  exists (template_of a serial cname t1 t2), pub, priv, w4.
  split; [exact Hc|].
  pose proof (Hclock _ _ _ _ _ E2 E3).
  cbn [x509.NotBefore x509.NotAfter template_of]. lia.
Qed.

(** The RSA generator asks for SHA256-with-RSA and signs with the key of
    [rsa.GenerateKey(rand.Reader, 2048)]; the EC generator asks for
    ECDSA-with-SHA256 and signs with the key of
    [ecdsa.GenerateKey(elliptic.P256(), rand.Reader)].  In both the
    certified public key is the public half of that key. *)
Theorem signature_matches_key (a : algorithm) (cname : string) (w : World)
    (keyPEM certPEM : bytes) (w' : World) :
  generate a cname w = Returned (keyPEM, certPEM) w' ->
  exists tmpl pub priv w0 w1,
    created w1 tmpl tmpl pub priv certPEM w' /\
    match a with
    | RSA =>
        x509.SignatureAlgorithm_ tmpl = x509.SHA256WithRSA /\
        exists k, rsa_GenerateKey rand_Reader 2048 w0 = ((k, None), w1) /\
                  priv = crypto.RSAPrivateKey k /\
                  pub = crypto.RSAPublicKey (rsa.Public k)
    | EC =>
        x509.SignatureAlgorithm_ tmpl = x509.ECDSAWithSHA256 /\
        exists k, ecdsa_GenerateKey elliptic.P256 rand_Reader w0
                    = ((k, None), w1) /\
                  priv = crypto.ECDSAPrivateKey k /\
                  pub = crypto.ECDSAPublicKey (ecdsa.Public k)
    end.
Proof.
  intros H. apply generate_Returned in H.
  destruct H as (serial & w1 & t1 & w2 & t2 & w3 & priv & pub & w4 &
                 _ & _ & _ & Hg & Hp & Hc & _).
  exists (template_of a serial cname t1 t2), pub, priv, w3, w4.
  split; [exact Hc|].
  destruct a; cbn in Hg |- *; destruct Hg as (k & Hg & ->);
    cbn in Hp; injection Hp as <-;
    (split; [reflexivity|]); exists k; repeat split; exact Hg.
Qed.

Lemma assemble_Returned (a : algorithm) (cname : string) (w : World)
    (t : tls.Certificate) (w' : World) :
  assemble a cname w = Returned t w' <->
  exists keyPEM certPEM,
    generate a cname w = Returned (keyPEM, certPEM) w' /\
    tls_X509KeyPair certPEM keyPEM = (t, None).
Proof.
  destruct a; cbn [assemble generate];
    unfold CreateCert, CreateECCert, bind, Expect_ToNot_HaveOccurred, ret.
  - destruct (CreateKeyPair cname w) as [[k c] w1|e1 w1].
    + destruct (tls_X509KeyPair c k) as [t1 [e2|]] eqn:Et; split.
      * discriminate.
      * intros (k' & c' & H & Ht). injection H as <- <- <-.
        rewrite Et in Ht. discriminate.
      * intros H. injection H as <- <-. exists k, c. split; auto.
      * intros (k' & c' & H & Ht). injection H as <- <- <-.
        rewrite Et in Ht. injection Ht as <-. reflexivity.
    + split; [discriminate|]. intros (k & c & H & _). discriminate.
  - destruct (CreateECKeyPair cname w) as [[k c] w1|e1 w1].
    + destruct (tls_X509KeyPair c k) as [t1 [e2|]] eqn:Et; split.
      * discriminate.
      * intros (k' & c' & H & Ht). injection H as <- <- <-.
        rewrite Et in Ht. discriminate.
      * intros H. injection H as <- <-. exists k, c. split; auto.
      * intros (k' & c' & H & Ht). injection H as <- <- <-.
        rewrite Et in Ht. injection Ht as <-. reflexivity.
    + split; [discriminate|]. intros (k & c & H & _). discriminate.
Qed.

Lemma assemble_Aborted (a : algorithm) (cname : string) (w : World)
    (e : error) (w' : World) :
  assemble a cname w = Aborted e w' <->
  generate a cname w = Aborted e w' \/
  exists keyPEM certPEM t,
    generate a cname w = Returned (keyPEM, certPEM) w' /\
    tls_X509KeyPair certPEM keyPEM = (t, Some e).
Proof.
  destruct a; cbn [assemble generate];
    unfold CreateCert, CreateECCert, bind, Expect_ToNot_HaveOccurred, ret.
  - destruct (CreateKeyPair cname w) as [[k c] w1|e1 w1].
    + destruct (tls_X509KeyPair c k) as [t1 [e2|]] eqn:Et; split.
      * intros H. injection H as <- <-. right. exists k, c, t1. split; auto.
      * intros [H|(k' & c' & t' & H & Ht)]; [discriminate|].
        injection H as <- <- <-. rewrite Et in Ht. injection Ht as _ <-.
        reflexivity.
      * discriminate.
      * intros [H|(k' & c' & t' & H & Ht)]; [discriminate|].
        injection H as <- <- <-. rewrite Et in Ht. discriminate.
    + split.
      * intros H. left. injection H as <- <-. reflexivity.
      * intros [H|(k & c & t & H & _)]; [|discriminate].
        injection H as <- <-. reflexivity.
  - destruct (CreateECKeyPair cname w) as [[k c] w1|e1 w1].
    + destruct (tls_X509KeyPair c k) as [t1 [e2|]] eqn:Et; split.
      * intros H. injection H as <- <-. right. exists k, c, t1. split; auto.
      * intros [H|(k' & c' & t' & H & Ht)]; [discriminate|].
        injection H as <- <- <-. rewrite Et in Ht. injection Ht as _ <-.
        reflexivity.
      * discriminate.
      * intros [H|(k' & c' & t' & H & Ht)]; [discriminate|].
        injection H as <- <- <-. rewrite Et in Ht. discriminate.
    + split.
      * intros H. left. injection H as <- <-. reflexivity.
      * intros [H|(k & c & t & H & _)]; [|discriminate].
        injection H as <- <-. reflexivity.
Qed.
End Templates.

Section Loading.
Context {L : Library}.
Hypothesis HD : pem_Decode_Encode.
Hypothesis HE : pem_Decode_empty.

(** Read block by block, the certificate text of either generator is one
    block, labelled "CERTIFICATE", and the key text of [CreateKeyPair] is
    one block, labelled "RSA PRIVATE KEY". *)
Theorem text_single_blocks (a : algorithm) (cname : string) (w : World)
    (keyPEM certPEM : bytes) (w' : World) :
  generate a cname w = Returned (keyPEM, certPEM) w' ->
  (exists certDER,
     pem_blocks certPEM =
       Some [ {| pem.Type_ := "CERTIFICATE"; pem.Headers := [];
                 pem.Bytes := certDER |} ]) /\
  (a = RSA ->
   exists der,
     pem_blocks keyPEM =
       Some [ {| pem.Type_ := "RSA PRIVATE KEY"; pem.Headers := [];
                 pem.Bytes := der |} ]).
Proof.
  intros H. apply generate_Returned in H.
  destruct H as (serial & w1 & t1 & w2 & t2 & w3 & priv & pub & w4 &
                 _ & _ & _ & _ & _ & (der & _ & ->) & Hk).
  split.
  - exists der. apply (pem_blocks_single HD HE), pem_label_CERTIFICATE.
  - intros ->. cbn in Hk. destruct Hk as (k & _ & ->).
    exists (x509_MarshalPKCS1PrivateKey k).
    apply (pem_blocks_single HD HE), pem_label_RSA.
Qed.

Hypothesis HC : Parse_CreateCertificate.
Hypothesis H1 : Parse_MarshalPKCS1.
Hypothesis H2 : Parse_MarshalEC.

(** What [tls.X509KeyPair] makes of the texts of a generator. *)
Lemma loads_generated (a : algorithm) (cname : string) (w : World)
    (keyPEM certPEM : bytes) (w' : World) :
  generate a cname w = Returned (keyPEM, certPEM) w' ->
  exists certDER c pub priv,
    certPEM = pem_EncodeToMemory (block "CERTIFICATE" certDER) /\
    x509_ParseCertificate certDER = (c, None) /\
    x509.PublicKey c = Some pub /\
    keys_match pub priv /\
    key_type_of a priv /\
    tls_X509KeyPair certPEM keyPEM
      = ({| tls.Certificate_ := [certDER]; tls.PrivateKey := Some priv |},
         None).
Proof.
  intros H. apply generate_Returned in H.
  destruct H as (serial & w1 & t1 & w2 & t2 & w3 & priv & pub & w4 &
                 _ & _ & _ & Hg & Hp & (der & Hc & ->) & Hk).
  destruct (HC _ _ _ _ _ _ _ _ Hc) as (c & Hparse & Hpub).
  destruct a; cbn in Hg, Hk.
  - destruct Hg as (k & Hg & ->). destruct Hk as (k' & Hk & ->).
    injection Hk as <-. cbn in Hp. injection Hp as <-.
    destruct (H1 _ _ _ _ _ Hg) as (kp & Hkp & Hsame).
    assert (Hm : keys_match (crypto.RSAPublicKey (rsa.Public k))
                   (crypto.RSAPrivateKey kp)) by (cbn; now rewrite Hsame).
    exists der, c, (crypto.RSAPublicKey (rsa.Public k)),
      (crypto.RSAPrivateKey kp).
    refine (conj eq_refl (conj Hparse (conj Hpub (conj Hm (conj I _))))).
    eapply (tls_X509KeyPair_pairs HD HE);
      [apply (keyBlock_RSA HD) | | exact Hparse | exact Hpub | exact Hm].
    unfold parsePrivateKey. cbn [pem.Bytes block]. rewrite Hkp. reflexivity.
  - destruct Hg as (k & Hg & ->).
    destruct Hk as (k' & privBytes & Hk & Hm' & ->).
    injection Hk as <-. cbn in Hp. injection Hp as <-.
    destruct (H2 _ _ _ _ _ _ Hg Hm') as (N1 & N8 & kp & Hkp & Hsame).
    assert (Hm : keys_match (crypto.ECDSAPublicKey (ecdsa.Public k))
                   (crypto.ECDSAPrivateKey kp)) by (cbn; now rewrite Hsame).
    exists der, c, (crypto.ECDSAPublicKey (ecdsa.Public k)),
      (crypto.ECDSAPrivateKey kp).
    refine (conj eq_refl (conj Hparse (conj Hpub (conj Hm (conj I _))))).
    eapply (tls_X509KeyPair_pairs HD HE);
      [apply (keyBlock_EC HD HE) | | exact Hparse | exact Hpub | exact Hm].
    unfold parsePrivateKey. cbn [pem.Bytes block].
    destruct (x509_ParsePKCS1PrivateKey privBytes) as [r1 [e1|]];
      [|now contradiction N1].
    destruct (x509_ParsePKCS8PrivateKey privBytes) as [r8 [e8|]];
      [|now contradiction N8].
    rewrite Hkp. reflexivity.
Qed.

(** The credential that [CreateCert] or [CreateECCert] returns has a chain
    of exactly one certificate, the DER payload of the generator's
    certificate text, and a private key of the generator's key type that
    matches the public key read from that certificate. *)
Theorem credential_contents (a : algorithm) (cname : string) (w : World)
    (t : tls.Certificate) (w' : World) :
  assemble a cname w = Returned t w' ->
  exists keyPEM certPEM certDER c pub priv,
    generate a cname w = Returned (keyPEM, certPEM) w' /\
    certPEM = pem_EncodeToMemory
                {| pem.Type_ := "CERTIFICATE"; pem.Headers := [];
                   pem.Bytes := certDER |} /\
    tls.Certificate_ t = [certDER] /\
    tls.PrivateKey t = Some priv /\
    key_type_of a priv /\
    x509_ParseCertificate certDER = (c, None) /\
    x509.PublicKey c = Some pub /\
    keys_match pub priv.
Proof.
  intros H. apply assemble_Returned in H.
  destruct H as (keyPEM & certPEM & Hg & Ht).
  destruct (loads_generated _ _ _ _ _ _ Hg)
    as (der & c & pub & priv & Hc & Hp & Hpub & Hm & Hty & Hload).
  rewrite Hload in Ht. injection Ht as <-.
  exists keyPEM, certPEM, der, c, pub, priv.
  repeat split; assumption.
Qed.

(** An assembler aborts exactly when its generator aborts, with the same
    error and world: [tls.X509KeyPair] adds no failure of its own. *)
Theorem assemble_aborts_with_generate (a : algorithm) (cname : string)
    (w : World) (e : error) (w' : World) :
  assemble a cname w = Aborted e w' <-> generate a cname w = Aborted e w'.
Proof.
  rewrite assemble_Aborted. split; [|now left].
  intros [H|(k & c & t & Hg & Ht)]; [exact H|].
  destruct (loads_generated _ _ _ _ _ _ Hg)
    as (der & c' & pub & priv & _ & _ & _ & _ & _ & Hload).
  rewrite Hload in Ht. discriminate.
Qed.
End Loading.

(** ** The further properties on runs of the small libraries *)

Module FaultyFacts.
Import Mock.

Lemma mock_clock_monotone (gap : Z) (oid_fails : bool) :
  0 <= gap -> clock_monotone (L := lib gap oid_fails).
Proof.
  intros Hgap w t1 w1 t2 w2 E1 E2. cbn in E1, E2. unfold Now in *.
  injection E1 as <- <-. injection E2 as <- _. cbn. lia.
Qed.

Section Laws.
Variable f : Faulty.fault.

Lemma faulty_pem_Decode_Encode : pem_Decode_Encode (L := Faulty.lib f).
Proof. exact (MockFacts.mock_pem_Decode_Encode 40 false). Qed.

Lemma faulty_pem_Decode_empty : pem_Decode_empty (L := Faulty.lib f).
Proof. reflexivity. Qed.

Lemma faulty_Parse_CreateCertificate :
  Parse_CreateCertificate (L := Faulty.lib f).
Proof.
  intros r template parent pub priv w der w' H. cbn in *.
  destruct (Faulty.is_NoSignature f); [discriminate|].
  destruct (MockFacts.ParseCertificate_Create _ _ _ _ _ _ _ _ H)
    as (c & Hc & Hp & _).
  exists c. split; assumption.
Qed.

Lemma faulty_Parse_MarshalPKCS1 : Parse_MarshalPKCS1 (L := Faulty.lib f).
Proof.
  intros r bits w k w' _. exists k. split; [|reflexivity].
  cbn. destruct k as [[n e] d]. unfold MarshalPKCS1, ParsePKCS1. cbn.
  rewrite !MockFacts.dec_Z_enc, MockFacts.dec_Z_enc_end. reflexivity.
Qed.

Lemma faulty_Parse_MarshalEC : Parse_MarshalEC (L := Faulty.lib f).
Proof.
  intros c r w k w' der _ H. cbn in *.
  destruct (Faulty.is_NoECMarshal f); [discriminate|].
  unfold MarshalEC in H. injection H as <-.
  split; [cbn; discriminate|]. split; [cbn; discriminate|].
  exists k. split; [|reflexivity].
  destruct k as [[cv x y] d]. unfold ParseEC. cbn.
  rewrite MockFacts.dec_curve_enc, !MockFacts.dec_Z_enc,
    MockFacts.dec_Z_enc_end.
  reflexivity.
Qed.
End Laws.
End FaultyFacts.

(** Splits on the outcome of the run in the goal, for a run that aborts. *)
Ltac on_abort E :=
  match goal with
  | |- exists e w', ?g = Aborted e w' /\ _ =>
      let a := fresh "a" in
      let e := fresh "e" in
      let w' := fresh "w'" in
      destruct g as [a w'|e w'] eqn:E;
      [ exfalso; vm_compute in E; discriminate E
      | exists e, w'; split; [reflexivity|] ]
  end.

Lemma generate_Aborted_witness :
  exists e w',
    generate (L := Faulty.lib Faulty.NoECMarshal) EC "potato.com" Mock.w0
      = Aborted e w' /\
    ((exists s,
        rand_Int (Library := Faulty.lib Faulty.NoECMarshal) rand_Reader
          (2 ^ 128) Mock.w0 = ((s, Some e), w')) \/
     (exists s w1 now1 w2 now2 w3,
        rand_Int (Library := Faulty.lib Faulty.NoECMarshal) rand_Reader
          (2 ^ 128) Mock.w0 = ((s, None), w1) /\
        time_Now (Library := Faulty.lib Faulty.NoECMarshal) w1 = (now1, w2) /\
        time_Now (Library := Faulty.lib Faulty.NoECMarshal) w2 = (now2, w3) /\
        (key_failed (L := Faulty.lib Faulty.NoECMarshal) EC w3 e w' \/
         exists priv pub w4,
           generated (L := Faulty.lib Faulty.NoECMarshal) EC w3 priv w4 /\
           public_of priv = Some pub /\
           ((exists der,
               x509_CreateCertificate
                 (Library := Faulty.lib Faulty.NoECMarshal) rand_Reader
                 (template_of EC s "potato.com" now1 now2)
                 (template_of EC s "potato.com" now1 now2) pub priv w4
                 = ((der, Some e), w')) \/
            (exists der k b,
               x509_CreateCertificate
                 (Library := Faulty.lib Faulty.NoECMarshal) rand_Reader
                 (template_of EC s "potato.com" now1 now2)
                 (template_of EC s "potato.com" now1 now2) pub priv w4
                 = ((der, None), w') /\
               priv = crypto.ECDSAPrivateKey k /\
               x509_MarshalECPrivateKey
                 (Library := Faulty.lib Faulty.NoECMarshal) k
                 = (b, Some e)))))).
Proof.
  on_abort E.
  exact (proj1 (generate_Aborted (L := Faulty.lib Faulty.NoECMarshal)
                  EC "potato.com" Mock.w0 _ _) E).
Defined.

Lemma SpecSSLConfig_extends_SpecConfig_witness :
  exists c w',
    SpecSSLConfig (L := Mock.std) 8082 8081 4443 [4222; 4223] Mock.w0
      = Returned c w' /\
    same_outside_ssl c (SpecConfig (L := Mock.std) 8082 8081 [4222; 4223]) /\
    config.CipherString c =
      "TLS_ECDHE_RSA_WITH_AES_128_GCM_SHA256:TLS_ECDHE_RSA_WITH_AES_256_GCM_SHA384".
Proof.
  destruct (SpecSSLConfig (L := Mock.std) 8082 8081 4443 [4222; 4223] Mock.w0)
    as [c w'|e w'] eqn:E.
  - exists c, w'. split; [reflexivity|].
    exact (SpecSSLConfig_extends_SpecConfig (L := Mock.std) 8082 8081 4443
             [4222; 4223] Mock.w0 c w' E).
  - exfalso. vm_compute in E. discriminate E.
Defined.

Lemma SpecSSLConfig_Aborted_witness :
  exists e w',
    SpecSSLConfig (L := Faulty.lib Faulty.NoKey) 8082 8081 4443 [] Mock.w0
      = Aborted e w' /\
    (CreateKeyPair (L := Faulty.lib Faulty.NoKey) "potato.com" Mock.w0
       = Aborted e w' \/
     exists key cert w1,
       CreateKeyPair (L := Faulty.lib Faulty.NoKey) "potato.com" Mock.w0
         = Returned (key, cert) w1 /\
       CreateKeyPair (L := Faulty.lib Faulty.NoKey) "potato2.com" w1
         = Aborted e w').
Proof.
  on_abort E.
  exact (proj1 (SpecSSLConfig_Aborted (L := Faulty.lib Faulty.NoKey)
                  8082 8081 4443 [] Mock.w0 _ _) E).
Defined.

Lemma TLSPEM_entries_witness :
  pem_Decode_Encode (L := Mock.std) /\
  exists c w',
    SpecSSLConfig (L := Mock.std) 8082 8081 4443 [4222] Mock.w0
      = Returned c w' /\
    exists key cert w1 secondKey secondCert der secondDer,
      CreateKeyPair (L := Mock.std) "potato.com" Mock.w0
        = Returned (key, cert) w1 /\
      CreateKeyPair (L := Mock.std) "potato2.com" w1
        = Returned (secondKey, secondCert) w' /\
      map bytes_of_string (config.TLSPEM c)
        = [key ++ x0a :: cert; secondKey ++ x0a :: secondCert] /\
      pem_Decode (Library := Mock.std) (key ++ x0a :: cert)
        = (Some {| pem.Type_ := "RSA PRIVATE KEY"; pem.Headers := [];
                   pem.Bytes := der |}, x0a :: cert) /\
      pem_Decode (Library := Mock.std) (secondKey ++ x0a :: secondCert)
        = (Some {| pem.Type_ := "RSA PRIVATE KEY"; pem.Headers := [];
                   pem.Bytes := secondDer |}, x0a :: secondCert).
Proof.
  split; [exact (MockFacts.mock_pem_Decode_Encode 40 false)|].
  destruct (SpecSSLConfig (L := Mock.std) 8082 8081 4443 [4222] Mock.w0)
    as [c w'|e w'] eqn:E.
  - exists c, w'. split; [reflexivity|].
    exact (TLSPEM_entries (L := Mock.std)
             (MockFacts.mock_pem_Decode_Encode 40 false)
             8082 8081 4443 [4222] Mock.w0 c w' E).
  - exfalso. vm_compute in E. discriminate E.
Defined.

Lemma validity_ordered_witness :
  clock_monotone (L := Mock.std) /\
  exists keyPEM certPEM w',
    generate (L := Mock.std) RSA "potato.com" Mock.w0
      = Returned (keyPEM, certPEM) w' /\
    exists tmpl pub priv w0,
      created (L := Mock.std) w0 tmpl tmpl pub priv certPEM w' /\
      x509.NotBefore tmpl < x509.NotAfter tmpl.
Proof.
  assert (Hclock : clock_monotone (L := Mock.std))
    by (apply (FaultyFacts.mock_clock_monotone 40 false); lia).
  split; [exact Hclock|].
  on_run E.
  exact (validity_ordered (L := Mock.std) Hclock RSA "potato.com" Mock.w0
           _ _ _ E).
Defined.

Lemma signature_matches_key_witness :
  exists keyPEM certPEM w',
    generate (L := Mock.std) EC "potato.com" Mock.w0
      = Returned (keyPEM, certPEM) w' /\
    exists tmpl pub priv w0 w1,
      created (L := Mock.std) w1 tmpl tmpl pub priv certPEM w' /\
      x509.SignatureAlgorithm_ tmpl = x509.ECDSAWithSHA256 /\
      exists k, ecdsa_GenerateKey (Library := Mock.std) elliptic.P256
                  rand_Reader w0 = ((k, None), w1) /\
                priv = crypto.ECDSAPrivateKey k /\
                pub = crypto.ECDSAPublicKey (ecdsa.Public k).
Proof.
  on_run E.
  exact (signature_matches_key (L := Mock.std) EC "potato.com" Mock.w0
           _ _ _ E).
Defined.

Lemma text_single_blocks_witness :
  pem_Decode_Encode (L := Mock.std) /\
  pem_Decode_empty (L := Mock.std) /\
  exists keyPEM certPEM w',
    generate (L := Mock.std) RSA "potato.com" Mock.w0
      = Returned (keyPEM, certPEM) w' /\
    (exists certDER,
       pem_blocks (L := Mock.std) certPEM =
         Some [ {| pem.Type_ := "CERTIFICATE"; pem.Headers := [];
                   pem.Bytes := certDER |} ]) /\
    (RSA = RSA ->
     exists der,
       pem_blocks (L := Mock.std) keyPEM =
         Some [ {| pem.Type_ := "RSA PRIVATE KEY"; pem.Headers := [];
                   pem.Bytes := der |} ]).
Proof.
  split; [exact (MockFacts.mock_pem_Decode_Encode 40 false)|].
  split; [exact (MockFacts.mock_pem_Decode_empty 40 false)|].
  on_run E.
  exact (text_single_blocks (L := Mock.std)
           (MockFacts.mock_pem_Decode_Encode 40 false)
           (MockFacts.mock_pem_Decode_empty 40 false)
           RSA "potato.com" Mock.w0 _ _ _ E).
Defined.

Lemma credential_contents_witness :
  pem_Decode_Encode (L := Mock.std) /\
  pem_Decode_empty (L := Mock.std) /\
  Parse_CreateCertificate (L := Mock.std) /\
  Parse_MarshalPKCS1 (L := Mock.std) /\
  Parse_MarshalEC (L := Mock.std) /\
  exists t w',
    assemble (L := Mock.std) RSA "potato.com" Mock.w0 = Returned t w' /\
    exists keyPEM certPEM certDER c pub priv,
      generate (L := Mock.std) RSA "potato.com" Mock.w0
        = Returned (keyPEM, certPEM) w' /\
      certPEM = pem_EncodeToMemory (Library := Mock.std)
                  {| pem.Type_ := "CERTIFICATE"; pem.Headers := [];
                     pem.Bytes := certDER |} /\
      tls.Certificate_ t = [certDER] /\
      tls.PrivateKey t = Some priv /\
      key_type_of RSA priv /\
      x509_ParseCertificate (Library := Mock.std) certDER = (c, None) /\
      x509.PublicKey c = Some pub /\
      keys_match pub priv.
Proof.
  split; [exact (MockFacts.mock_pem_Decode_Encode 40 false)|].
  split; [exact (MockFacts.mock_pem_Decode_empty 40 false)|].
  split; [exact (MockFacts.mock_Parse_CreateCertificate 40 false)|].
  split; [exact (MockFacts.mock_Parse_MarshalPKCS1 40 false)|].
  split; [exact (MockFacts.mock_Parse_MarshalEC 40 false)|].
  destruct (assemble (L := Mock.std) RSA "potato.com" Mock.w0)
    as [t w'|e w'] eqn:E.
  - exists t, w'. split; [reflexivity|].
    exact (credential_contents (L := Mock.std)
             (MockFacts.mock_pem_Decode_Encode 40 false)
             (MockFacts.mock_pem_Decode_empty 40 false)
             (MockFacts.mock_Parse_CreateCertificate 40 false)
             (MockFacts.mock_Parse_MarshalPKCS1 40 false)
             (MockFacts.mock_Parse_MarshalEC 40 false)
             RSA "potato.com" Mock.w0 t w' E).
  - exfalso. vm_compute in E. discriminate E.
Defined.

Lemma assemble_aborts_with_generate_witness :
  pem_Decode_Encode (L := Faulty.lib Faulty.NoSignature) /\
  pem_Decode_empty (L := Faulty.lib Faulty.NoSignature) /\
  Parse_CreateCertificate (L := Faulty.lib Faulty.NoSignature) /\
  Parse_MarshalPKCS1 (L := Faulty.lib Faulty.NoSignature) /\
  Parse_MarshalEC (L := Faulty.lib Faulty.NoSignature) /\
  exists e w',
    assemble (L := Faulty.lib Faulty.NoSignature) RSA "potato.com" Mock.w0
      = Aborted e w' /\
    generate (L := Faulty.lib Faulty.NoSignature) RSA "potato.com" Mock.w0
      = Aborted e w'.
Proof.
  split; [exact (FaultyFacts.faulty_pem_Decode_Encode Faulty.NoSignature)|].
  split; [exact (FaultyFacts.faulty_pem_Decode_empty Faulty.NoSignature)|].
  split;
    [exact (FaultyFacts.faulty_Parse_CreateCertificate Faulty.NoSignature)|].
  split; [exact (FaultyFacts.faulty_Parse_MarshalPKCS1 Faulty.NoSignature)|].
  split; [exact (FaultyFacts.faulty_Parse_MarshalEC Faulty.NoSignature)|].
  on_abort E.
  exact (proj1 (assemble_aborts_with_generate
                  (L := Faulty.lib Faulty.NoSignature)
                  (FaultyFacts.faulty_pem_Decode_Encode Faulty.NoSignature)
                  (FaultyFacts.faulty_pem_Decode_empty Faulty.NoSignature)
                  (FaultyFacts.faulty_Parse_CreateCertificate Faulty.NoSignature)
                  (FaultyFacts.faulty_Parse_MarshalPKCS1 Faulty.NoSignature)
                  (FaultyFacts.faulty_Parse_MarshalEC Faulty.NoSignature)
                  RSA "potato.com" Mock.w0 _ _) E).
Defined.
